(** * Simple Youtube skill: the search pipeline of [SimpleYoutubeSkill]

    A shallow embedding of [src/__init__.py]: the request normaliser, the
    cached provider call, the category filters, the duration parser, the
    confidence scorer and the three list comprehensions that build the
    matches.

    Conventions of the embedding.
    - A Python [str] is a [string] read as ASCII text.
    - A Python [int] is a [Z].
    - A Python [float] is an exact rational [Q]: rounding of binary64 is
      outside the model.  The one float operation of the source that can
      raise, the true division of an [int] too large for a float, is
      modelled with its [OverflowError].
    - A Python exception is a constructor of [exception]; code that can
      raise returns a [result].
    - [self] is a record; the one attribute the method assigns to, the
      search cache, is threaded through as state. *)

From Stdlib Require Import Ascii String ZArith QArith Qround Lqa Lia.
From stdpp Require Import base option list strings gmap.

Local Open Scope string_scope.
Local Open Scope Z_scope.

(** ** Exceptions *)

Inductive exception : Type :=
| ValueError
| IndexError
| OverflowError.

Inductive result (A : Type) : Type :=
| Ok (a : A)
| Raise (e : exception).

Arguments Ok {A} a.
Arguments Raise {A} e.

#[export] Instance result_ret : MRet result := fun _ a => Ok a.

#[export] Instance result_bind : MBind result := fun _ _ k m =>
  match m with
  | Ok a => k a
  | Raise e => Raise e
  end.

(** [[f(x) for x in xs]]: the elements are evaluated in order and the first
    exception ends the comprehension. *)
Fixpoint comprehension {A B : Type} (f : A -> result B) (xs : list A)
  : result (list B) :=
  match xs with
  | [] => Ok []
  | x :: xs' => y ← f x; ys ← comprehension f xs'; Ok (y :: ys)
  end.

(** [[x for x in xs if p(x)]]. *)
Fixpoint comprehension_if {A : Type} (p : A -> result bool) (xs : list A)
  : result (list A) :=
  match xs with
  | [] => Ok []
  | x :: xs' =>
      keep ← p x;
      ys ← comprehension_if p xs';
      Ok (if keep : bool then x :: ys else ys)
  end.

(** [enumerate(xs)], counting from [start]. *)
Fixpoint enumerate_from {A : Type} (start : nat) (xs : list A)
  : list (nat * A) :=
  match xs with
  | [] => []
  | x :: xs' => (start, x) :: enumerate_from (S start) xs'
  end.

Definition enumerate {A : Type} (xs : list A) : list (nat * A) :=
  enumerate_from 0 xs.

(** ** The Python built-ins the method uses *)

Module Py.

(** [xs[i]]: a negative index counts from the end; out of range raises. *)
Definition getitem {A : Type} (xs : list A) (i : Z) : result A :=
  let n := Z.of_nat (length xs) in
  let j := if i <? 0 then i + n else i in
  if (j <? 0) || (n <=? j) then Raise IndexError
  else match xs !! Z.to_nat j with
       | Some x => Ok x
       | None => Raise IndexError
       end.

Definition is_ascii_digit (c : ascii) : bool :=
  let n := N_of_ascii c in ((48 <=? n) && (n <=? 57))%N.

Definition digit_value (c : ascii) : Z :=
  Z.of_N (N_of_ascii c) - 48.

(** The white space [int] skips: space, tab, line feed, vertical tab,
    form feed, carriage return. *)
Definition is_space (c : ascii) : bool :=
  let n := N_of_ascii c in ((n =? 32) || ((9 <=? n) && (n <=? 13)))%N.

Fixpoint all_chars (p : ascii -> bool) (s : string) : bool :=
  match s with
  | EmptyString => true
  | String c s' => p c && all_chars p s'
  end.

(** [s.isdigit()] on ASCII text: at least one character, and all of them
    digits.  [str.isdigit] is also true of digit characters outside
    ASCII; a statement that rests on this definition says so with
    [is_ascii], or goes through [isdigit] without looking into it. *)
Definition isdigit (s : string) : bool :=
  match s with
  | EmptyString => false
  | String _ _ => all_chars is_ascii_digit s
  end.

Definition lower_char (c : ascii) : ascii :=
  let n := N_of_ascii c in
  if ((65 <=? n) && (n <=? 90))%N then ascii_of_N (n + 32) else c.

(** [s.lower()]. *)
Fixpoint lower (s : string) : string :=
  match s with
  | EmptyString => EmptyString
  | String c s' => String (lower_char c) (lower s')
  end.

(** [s.split(sep)] for a separator of one character: never empty. *)
Fixpoint split (sep : ascii) (s : string) : list string :=
  match s with
  | EmptyString => [EmptyString]
  | String c s' =>
      if Ascii.eqb c sep then EmptyString :: split sep s'
      else match split sep s' with
           | field :: fields => String c field :: fields
           | [] => [String c EmptyString]
           end
  end.

Fixpoint lstrip (s : string) : string :=
  match s with
  | String c s' => if is_space c then lstrip s' else s
  | EmptyString => EmptyString
  end.

(** What the digit scanner of [int] has just read. *)
Inductive scanned : Type := Nothing | Digit | Underscore.

(** The decimal literal of [int]: digits, single underscores between
    digits only, then white space up to the end of the string. *)
Fixpoint scan_digits (prev : scanned) (acc : Z) (s : string) : option Z :=
  match s with
  | EmptyString =>
      match prev with Digit => Some acc | _ => None end
  | String c s' =>
      if is_ascii_digit c then scan_digits Digit (10 * acc + digit_value c) s'
      else if Ascii.eqb c "_"%char then
        match prev with
        | Digit => scan_digits Underscore acc s'
        | _ => None
        end
      else if is_space c then
        match prev with
        | Digit => if all_chars is_space s' then Some acc else None
        | _ => None
        end
      else None
  end.

(** [int(s)] in base ten on ASCII text: white space, an optional sign,
    the literal.  [int] also reads decimal digits and skips white space
    outside ASCII; a statement that rests on this definition says so with
    [is_ascii], or goes through [int] without looking into it.  The
    interpreter's optional limit on the number of digits converted is not
    modelled. *)
Definition int (s : string) : result Z :=
  let parsed :=
    match lstrip s with
    | String "+"%char s' => scan_digits Nothing 0 s'
    | String "-"%char s' => Z.opp <$> scan_digits Nothing 0 s'
    | s' => scan_digits Nothing 0 s'
    end in
  match parsed with
  | Some n => Ok n
  | None => Raise ValueError
  end.

(** The least magnitude that no longer rounds to a finite binary64. *)
Definition float_overflow : Z := 2 ^ 1024 - 2 ^ 970.

(** [a / b] on two [int]s, [b] positive: a float, or [OverflowError]
    when the quotient is too large for one. *)
Definition truediv (a b : Z) : result Q :=
  if float_overflow * b <=? Z.abs a then Raise OverflowError
  else Ok (inject_Z a / inject_Z b)%Q.

(** [x >= y] and [x < y] on floats. *)
Definition ge (x y : Q) : bool := Qle_bool y x.

Definition lt (x y : Q) : bool := negb (Qle_bool y x).

(** [min(100, x)]: the second argument replaces the first only when it
    is smaller. *)
Definition min_100 (x : Q) : Q :=
  if lt x 100 then x else 100%Q.

End Py.

(** ** Data *)

(** Modelled from the spec: [CommonPlayMediaType] is imported from
    [ovos_workshop] and its declaration is not part of the repository;
    these are the requested categories of the spec's data model. *)
Module CommonPlayMediaType.
Inductive t : Type := GENERIC | MUSIC | PODCAST | DOCUMENTARY | VIDEO | AUDIO.

#[global] Instance eq_dec : EqDecision t.
Proof. solve_decision. Defined.
End CommonPlayMediaType.

(** Modelled from the spec: [CommonPlayPlaybackType] is imported from
    [ovos_workshop]; these are the two playback forms of the spec. *)
Module CommonPlayPlaybackType.
Inductive t : Type := VIDEO | AUDIO.

#[global] Instance eq_dec : EqDecision t.
Proof. solve_decision. Defined.
End CommonPlayPlaybackType.

(** One entry of a video's ["thumbnails"]. *)
Module Thumbnail.
Record t : Type := { url : string }.
End Thumbnail.

(** One entry of the provider's ["videos"]; ["length"] may be missing. *)
Module Video.
Record t : Type := {
  title : string;
  url : string;
  length : option string;
  thumbnails : list Thumbnail.t
}.
End Video.

(** One dictionary of the returned list. *)
Module Match.
Record t : Type := {
  match_confidence : Q;
  media_type : CommonPlayMediaType.t;
  length : Z;
  uri : string;
  playback : CommonPlayPlaybackType.t;
  image : string;
  bg_image : string;
  skill_icon : string;
  skill_logo : string;
  title : string;
  skill_id : string
}.
End Match.

Record Settings : Type := {
  fallback_mode : bool;
  audio_only : bool;
  video_only : bool
}.

(** The defaults [__init__] writes for missing keys. *)
Definition default_settings : Settings :=
  {| fallback_mode := false; audio_only := false; video_only := true |}.

(** [self]: what the method reads of the skill object. *)
Record SimpleYoutubeSkill : Type := {
  settings : Settings;
  gui_connected : bool;
  skill_icon : string;
  skill_id : string;
  search_cache : gmap string (list Video.t)
}.

Definition set_search_cache (self : SimpleYoutubeSkill)
    (cache : gmap string (list Video.t)) : SimpleYoutubeSkill :=
  {| settings := settings self;
     gui_connected := gui_connected self;
     skill_icon := skill_icon self;
     skill_id := skill_id self;
     search_cache := cache |}.

Definition set_settings (self : SimpleYoutubeSkill) (s : Settings)
  : SimpleYoutubeSkill :=
  {| settings := s;
     gui_connected := gui_connected self;
     skill_icon := skill_icon self;
     skill_id := skill_id self;
     search_cache := search_cache self |}.

(** ** The method [search_youtube] *)

Section Skill.

(** The collaborators the method calls: the vocabulary matcher and
    remover of the skill base class, the fuzzy matcher (always called
    with the token-set strategy) and the search provider, which returns
    the ["videos"] of its answer or raises ([None]). *)
Variable voc_match : string -> string -> bool.
Variable remove_voc : string -> string -> string.
Variable fuzzy_match : string -> string -> Q.
Variable youtube_searcher : string -> option (list Video.t).

(** [parse_duration]: the duration in milliseconds. *)
Definition parse_duration (video : Video.t) : result Z :=
  match Video.length video with
  | None | Some "" => Ok 0
  | Some text =>
      let nums := Py.split ":" text in
      seconds ←
        match nums with
        | [n0] =>
            (* len(nums) == 1 and nums[0].isdigit() *)
            if Py.isdigit n0 then Py.int n0 else Ok 0
        | [n0; _] =>
            (* len(nums) == 2 *)
            a ← Py.int n0; b ← Py.int n0; Ok (a * 60 + b)
        | [n0; _; _] =>
            (* len(nums) == 3 *)
            a ← Py.int n0; b ← Py.int n0; c ← Py.int n0;
            Ok (a * 60 * 60 + b * 60 + c)
        | _ => Ok 0
        end;
      Ok (seconds * 1000)
  end.

Definition is_music (m : Video.t) : bool :=
  voc_match (Video.title m) "music".

Definition is_podcast (m : Video.t) : result bool :=
  ms ← parse_duration m;
  dur ← Py.truediv ms 1000;
  if Py.lt dur (inject_Z (30 * 60)) then Ok false
  else Ok (voc_match (Video.title m) "podcast").

Definition is_documentary (m : Video.t) : result bool :=
  ms ← parse_duration m;
  dur ← Py.truediv ms 1000;
  if Py.lt dur (inject_Z (20 * 60)) then Ok false
  else Ok (voc_match (Video.title m) "documentary").

(** The last thumbnail's address up to its query string:
    [r["thumbnails"][-1]["url"].split("?")[0]]. *)
Definition thumbnail (r : Video.t) : result string :=
  last ← Py.getitem (Video.thumbnails r) (-1);
  Py.getitem (Py.split "?" (Thumbnail.url last)) 0.

(** The local variables the nested functions close over. *)
Section Closures.

Variable self : SimpleYoutubeSkill.
Variable phrase : string.
Variable media_type : CommonPlayMediaType.t.
Variable base_score : Z.
Variable explicit_request : bool.

(** The running score when [calc_score] reaches its [return]. *)
Definition score_before_min (m : Video.t) (idx : nat) : Q :=
  (let score := inject_Z (base_score - Z.of_nat idx * 5)%Z in
   let score :=
     score
     + 100 * fuzzy_match (Py.lower phrase) (Py.lower (Video.title m)) in
   let score :=
     if bool_decide (media_type = CommonPlayMediaType.GENERIC)
     then score - 10 else score in
   let score :=
     if Py.ge score 100 then
       if bool_decide (media_type = CommonPlayMediaType.AUDIO)
       then score - 20
       else if negb (bool_decide (media_type = CommonPlayMediaType.VIDEO))
       then score - 10
       else if bool_decide (media_type = CommonPlayMediaType.MUSIC)
               && negb (is_music m)
       then score - 5
       else score
     else score in
   let score :=
     if fallback_mode (settings self) then
       if negb explicit_request then score - 25 else score
     else score in
   score)%Q.

Definition calc_score (m : Video.t) (idx : nat) : Q :=
  Py.min_100 (score_before_min m idx).

(** The three dictionaries, one per comprehension of the source. *)
Definition audio_only_match (entry : nat * Video.t) : result Match.t :=
  let '(idx, r) := entry in
  let confidence := calc_score r idx in
  length ← parse_duration r;
  image ← thumbnail r;
  bg_image ← thumbnail r;
  Ok {| Match.match_confidence := confidence;
        Match.media_type := CommonPlayMediaType.VIDEO;
        Match.length := length;
        Match.uri := Video.url r;
        Match.playback := CommonPlayPlaybackType.AUDIO;
        Match.image := image;
        Match.bg_image := bg_image;
        Match.skill_icon := skill_icon self;
        Match.skill_logo := skill_icon self;
        Match.title := Video.title r ++ " (audio only)";
        Match.skill_id := skill_id self |}.

Definition video_match (entry : nat * Video.t) : result Match.t :=
  let '(idx, r) := entry in
  let confidence := calc_score r idx in
  length ← parse_duration r;
  image ← thumbnail r;
  bg_image ← thumbnail r;
  Ok {| Match.match_confidence := confidence;
        Match.media_type := CommonPlayMediaType.VIDEO;
        Match.length := length;
        Match.uri := Video.url r;
        Match.playback := CommonPlayPlaybackType.VIDEO;
        Match.image := image;
        Match.bg_image := bg_image;
        Match.skill_icon := skill_icon self;
        Match.skill_logo := skill_icon self;
        Match.title := Video.title r;
        Match.skill_id := skill_id self |}.

Definition audio_duplicate_match (entry : nat * Video.t)
  : result Match.t :=
  let '(idx, r) := entry in
  let confidence := (calc_score r idx - 1)%Q in
  length ← parse_duration r;
  image ← thumbnail r;
  bg_image ← thumbnail r;
  Ok {| Match.match_confidence := confidence;
        Match.media_type := CommonPlayMediaType.VIDEO;
        Match.length := length;
        Match.uri := Video.url r;
        Match.playback := CommonPlayPlaybackType.AUDIO;
        Match.image := image;
        Match.bg_image := bg_image;
        Match.skill_icon := skill_icon self;
        Match.skill_logo := skill_icon self;
        Match.title := Video.title r ++ " (audio only)";
        Match.skill_id := skill_id self |}.

(** [# filter results]: the three category filters. *)
Definition filter_results (results : list Video.t)
  : result (list Video.t) :=
  results ←
    (if bool_decide (media_type = CommonPlayMediaType.MUSIC)
     then Ok (filter (fun r => is_music r = true) results)
     else Ok results);
  results ←
    (if bool_decide (media_type = CommonPlayMediaType.PODCAST)
     then comprehension_if is_podcast results
     else Ok results);
  if bool_decide (media_type = CommonPlayMediaType.DOCUMENTARY)
  then comprehension_if is_documentary results
  else Ok results.

(** [matches = [] ... return matches], on the filtered results. *)
Definition build_matches (results : list Video.t)
  : result (list Match.t) :=
  let matches : list Match.t := [] in
  if audio_only (settings self) then
    audio ← comprehension audio_only_match (enumerate results);
    Ok (matches ++ audio)%list
  else
    video ← comprehension video_match (enumerate results);
    let matches := (matches ++ video)%list in
    if negb (video_only (settings self)) then
      audio ← comprehension audio_duplicate_match (enumerate results);
      Ok (matches ++ audio)%list
    else Ok matches.

End Closures.

(** The list [playback] of allowed playback forms.  The method binds it
    and never reads it again. *)
Definition playback_forms (self : SimpleYoutubeSkill)
    (media_type : CommonPlayMediaType.t) : list CommonPlayPlaybackType.t :=
  if bool_decide (media_type = CommonPlayMediaType.AUDIO)
     || negb (gui_connected self)
  then [CommonPlayPlaybackType.AUDIO]
  else if negb (bool_decide (media_type = CommonPlayMediaType.VIDEO))
  then [CommonPlayPlaybackType.VIDEO; CommonPlayPlaybackType.AUDIO]
  else [CommonPlayPlaybackType.VIDEO].

(** [base_score], [phrase] and [explicit_request] after the request was
    matched against the media type and the provider's name. *)
Definition normalise (phrase : string) (media_type : CommonPlayMediaType.t)
  : Z * string * bool :=
  let base_score := 0 in
  let base_score :=
    if bool_decide (media_type = CommonPlayMediaType.MUSIC) then base_score + 15
    else if bool_decide (media_type = CommonPlayMediaType.VIDEO)
    then base_score + 25
    else base_score in
  let explicit_request := false in
  if voc_match phrase "youtube"
  then (base_score + 50, remove_voc phrase "youtube", true)
  else (base_score, phrase, explicit_request).

(** The method: what it returns or raises, and [self] afterwards. *)
Definition search_youtube (self : SimpleYoutubeSkill) (phrase : string)
    (media_type : CommonPlayMediaType.t)
  : result (list Match.t) * SimpleYoutubeSkill :=
  let '(base_score, phrase, explicit_request) :=
    normalise phrase media_type in
  let playback := playback_forms self media_type in
  let rank (self : SimpleYoutubeSkill) (results : list Video.t) :=
    (results ← filter_results media_type results;
     build_matches self phrase media_type base_score explicit_request
       results,
     self) in
  match search_cache self !! phrase with
  | Some results => rank self results
  | None =>
      match youtube_searcher phrase with
      | None => (Ok [], self)
      | Some results =>
          rank (set_search_cache self
                  (<[phrase := results]> (search_cache self)))
               results
      end
  end.

End Skill.

(** ** A small deployment, for running the method on concrete requests *)

Module Fixture.

Definition contains (word text : string) : bool :=
  match String.index 0 word text with
  | Some _ => true
  | None => false
  end.

Definition vocabulary (name : string) : list string :=
  if String.eqb name "youtube" then ["youtube"]
  else if String.eqb name "music" then ["music"; "full album"]
  else if String.eqb name "podcast" then ["podcast"]
  else if String.eqb name "documentary" then ["documentary"]
  else [].

Definition voc_match (utterance name : string) : bool :=
  existsb (fun word => contains word (Py.lower utterance)) (vocabulary name).

Definition remove_voc (utterance name : string) : string :=
  if String.prefix "youtube " utterance
  then String.substring 8 (String.length utterance - 8) utterance
  else utterance.

(** Equal texts are a full match, all others no match at all. *)
Definition fuzzy_match (a b : string) : Q :=
  if String.eqb a b then 1%Q else 0%Q.

Definition video (title : string) (length : option string)
    (thumbnails : list string) : Video.t :=
  {| Video.title := title;
     Video.url := "https://www.youtube.com/watch?v=" ++ title;
     Video.length := length;
     Video.thumbnails := (fun u => {| Thumbnail.url := u |}) <$> thumbnails |}.

Definition thumbs : list string :=
  ["https://i.ytimg.com/vi/a/hq720.jpg?sqp=x";
   "https://i.ytimg.com/vi/a/hq.jpg?sqp=y"].

Definition rock_music_videos : list Video.t :=
  [video "Live set" (Some "1:30") thumbs;
   video "Talk" None thumbs;
   video "Interview" (Some "45") thumbs;
   video "Rock Music" (Some "3:49") thumbs].

(** The provider answers four phrases and raises on every other. *)
Definition youtube_searcher (phrase : string) : option (list Video.t) :=
  if String.eqb phrase "rock music" then Some rock_music_videos
  else if String.eqb phrase "big buck bunny" then
    Some [video "Big Buck Bunny" (Some "9:56") thumbs]
  else if String.eqb phrase "no thumbnails" then
    Some [video "No thumbnails" (Some "2:00") []]
  else if String.eqb phrase "odd length" then
    Some [video "Odd length" (Some "a:30") thumbs]
  else None.

Definition skill (s : Settings) : SimpleYoutubeSkill :=
  {| settings := s;
     gui_connected := true;
     skill_icon := "ui/ytube.jpg";
     skill_id := "skill-simple-youtube";
     search_cache := ∅ |}.

(** Neither [audio_only] nor [video_only]; with and without fallback. *)
Definition both_forms : Settings :=
  {| fallback_mode := false; audio_only := false; video_only := false |}.

Definition fallback (s : Settings) : Settings :=
  {| fallback_mode := true;
     audio_only := audio_only s;
     video_only := video_only s |}.

Definition run (s : Settings) (phrase : string)
    (media_type : CommonPlayMediaType.t)
  : result (list Match.t) * SimpleYoutubeSkill :=
  search_youtube voc_match remove_voc fuzzy_match youtube_searcher
    (skill s) phrase media_type.

Definition search (s : Settings) (phrase : string)
    (media_type : CommonPlayMediaType.t) : result (list Match.t) :=
  (run s phrase media_type).1.

Definition matches_of (r : result (list Match.t)) : list Match.t :=
  match r with
  | Ok ms => ms
  | Raise _ => []
  end.

(** The match at position [i], or a blank one. *)
Definition match_at (i : nat) (r : result (list Match.t)) : Match.t :=
  nth i (matches_of r)
    {| Match.match_confidence := 0%Q;
       Match.media_type := CommonPlayMediaType.GENERIC;
       Match.length := 0;
       Match.uri := "";
       Match.playback := CommonPlayPlaybackType.AUDIO;
       Match.image := "";
       Match.bg_image := "";
       Match.skill_icon := "";
       Match.skill_logo := "";
       Match.title := "";
       Match.skill_id := "" |}.

Definition confidences (r : result (list Match.t)) : result (list Q) :=
  ms ← r; Ok (map Match.match_confidence ms).

Definition playbacks (r : result (list Match.t))
  : result (list CommonPlayPlaybackType.t) :=
  ms ← r; Ok (map Match.playback ms).

End Fixture.

(** ** The vocabulary of the statements *)

(** The number a string of digits denotes, read after [acc]. *)
Fixpoint decimal_from (acc : Z) (s : string) : Z :=
  match s with
  | EmptyString => acc
  | String c s' => decimal_from (10 * acc + Py.digit_value c) s'
  end.

Definition decimal (s : string) : Z := decimal_from 0 s.

Definition with_length (video : Video.t) (text : string) : Video.t :=
  {| Video.title := Video.title video;
     Video.url := Video.url video;
     Video.length := Some text;
     Video.thumbnails := Video.thumbnails video |}.

Section Statements.

Variable voc_match : string -> string -> bool.
Variable remove_voc : string -> string -> string.
Variable youtube_searcher : string -> option (list Video.t).

(** The phrase the cache and the provider are asked for. *)
Definition searched_phrase (phrase : string)
    (media_type : CommonPlayMediaType.t) : string :=
  (normalise voc_match remove_voc phrase media_type).1.2.

(** The results come from the cache, or from the provider, which then
    enters them into the cache. *)
Definition fetched (self : SimpleYoutubeSkill) (phrase : string)
    (results : list Video.t) (self' : SimpleYoutubeSkill) : Prop :=
  (search_cache self !! phrase = Some results /\ self' = self)
  \/ (search_cache self !! phrase = None
      /\ youtube_searcher phrase = Some results
      /\ self' = set_search_cache self
                   (<[phrase := results]> (search_cache self))).

End Statements.

(** A video is fit for a match when it has a thumbnail and a duration the
    parser accepts; it is fit for the duration filters when that duration
    is also within the range of a float. *)
Definition has_thumbnail (r : Video.t) : bool :=
  match Video.thumbnails r with
  | [] => false
  | _ :: _ => true
  end.

Definition duration_in_range (r : Video.t) : bool :=
  match parse_duration r with
  | Ok ms => Z.abs ms <? Py.float_overflow * 1000
  | Raise _ => false
  end.

Definition well_formed (r : Video.t) : Prop :=
  has_thumbnail r = true /\ duration_in_range r = true.

(** The skill with [fallback_mode] switched. *)
Definition with_fallback_mode (self : SimpleYoutubeSkill) (b : bool)
  : SimpleYoutubeSkill :=
  set_settings self
    {| fallback_mode := b;
       audio_only := audio_only (settings self);
       video_only := video_only (settings self) |}.



(** ** The rest of the class and further vocabulary *)

(** [__init__], lines 20 to 25: a key missing from the stored settings
    gets its default.  The settings are the dictionary the skill loads
    from its settings file, read here with truth values. *)
Definition init_settings (stored : gmap string bool) : gmap string bool :=
  let settings := stored in
  let settings :=
    if decide (settings !! "fallback_mode" = None)
    then <["fallback_mode" := false]> settings else settings in
  let settings :=
    if decide (settings !! "audio_only" = None)
    then <["audio_only" := false]> settings else settings in
  let settings :=
    if decide (settings !! "video_only" = None)
    then <["video_only" := true]> settings else settings in
  settings.

(** The three items [search_youtube] reads, [self.settings["..."]] each;
    [None] is the KeyError of a missing key. *)
Definition settings_of (stored : gmap string bool) : option Settings :=
  fallback ← stored !! "fallback_mode";
  audio ← stored !! "audio_only";
  video ← stored !! "video_only";
  Some {| fallback_mode := fallback; audio_only := audio;
          video_only := video |}.

Definition set_gui_connected (self : SimpleYoutubeSkill) (b : bool)
  : SimpleYoutubeSkill :=
  {| settings := settings self;
     gui_connected := b;
     skill_icon := skill_icon self;
     skill_id := skill_id self;
     search_cache := search_cache self |}.

(** How often a character occurs in a string. *)
Fixpoint count_char (c : ascii) (s : string) : nat :=
  match s with
  | EmptyString => 0
  | String c' s' => (if Ascii.eqb c' c then 1 else 0) + count_char c s'
  end.

(** Whether the filter of a requested category keeps a result; a filter
    that raises keeps nothing. *)
Definition keeps (voc_match : string -> string -> bool)
    (media_type : CommonPlayMediaType.t) (r : Video.t) : bool :=
  match media_type with
  | CommonPlayMediaType.MUSIC => is_music voc_match r
  | CommonPlayMediaType.PODCAST =>
      match is_podcast voc_match r with Ok b => b | Raise _ => false end
  | CommonPlayMediaType.DOCUMENTARY =>
      match is_documentary voc_match r with Ok b => b | Raise _ => false end
  | _ => true
  end.

(** Whether the filter of a requested category runs through on a result. *)
Definition filter_accepts (voc_match : string -> string -> bool)
    (media_type : CommonPlayMediaType.t) (r : Video.t) : Prop :=
  match media_type with
  | CommonPlayMediaType.PODCAST => exists b, is_podcast voc_match r = Ok b
  | CommonPlayMediaType.DOCUMENTARY =>
      exists b, is_documentary voc_match r = Ok b
  | _ => True
  end.

(** Text of ASCII characters only: the text on which [Py.isdigit] and
    [Py.int] are Python's [str.isdigit] and [int]. *)
Definition is_ascii (s : string) : bool :=
  Py.all_chars (fun c => (N_of_ascii c <? 128)%N) s.



(** * Properties *)

(** ** Strings: splitting and reading digits *)

Lemma digit_is_not (c sep : ascii) :
  Py.is_ascii_digit c = true ->
  Py.is_ascii_digit sep = false ->
  Ascii.eqb c sep = false.
Proof.
  intros Hc Hsep. destruct (Ascii.eqb c sep) eqn:E; [|reflexivity].
  apply Ascii.eqb_eq in E. subst. congruence.
Qed.

Lemma split_field (sep : ascii) (a : string) :
  Py.is_ascii_digit sep = false ->
  Py.all_chars Py.is_ascii_digit a = true ->
  Py.split sep a = [a].
Proof.
  intros Hsep. induction a as [|c a IH]; simpl; [reflexivity|].
  intros [Hc Ha]%andb_prop.
  rewrite (digit_is_not c sep Hc Hsep), (IH Ha). reflexivity.
Qed.

Lemma split_fields (sep : ascii) (a rest : string) :
  Py.is_ascii_digit sep = false ->
  Py.all_chars Py.is_ascii_digit a = true ->
  Py.split sep (a ++ String sep rest) = a :: Py.split sep rest.
Proof.
  intros Hsep. induction a as [|c a IH]; simpl.
  - intros _. rewrite Ascii.eqb_refl. reflexivity.
  - intros [Hc Ha]%andb_prop.
    rewrite (digit_is_not c sep Hc Hsep), (IH Ha). reflexivity.
Qed.

Lemma isdigit_all_chars (s : string) :
  Py.isdigit s = true -> Py.all_chars Py.is_ascii_digit s = true.
Proof. destruct s; simpl; [discriminate | trivial]. Qed.

Lemma scan_digits_decimal (acc : Z) (s : string) :
  Py.all_chars Py.is_ascii_digit s = true ->
  Py.scan_digits Py.Digit acc s = Some (decimal_from acc s).
Proof.
  revert acc. induction s as [|c s IH]; intros acc; simpl; [reflexivity|].
  intros [Hc Hs]%andb_prop. rewrite Hc. apply IH, Hs.
Qed.

Lemma digit_is_not_space (c : ascii) :
  Py.is_ascii_digit c = true -> Py.is_space c = false.
Proof.
  unfold Py.is_ascii_digit, Py.is_space.
  intros [H1 H2]%andb_prop.
  apply N.leb_le in H1. apply N.leb_le in H2.
  apply orb_false_intro.
  - apply N.eqb_neq. lia.
  - apply andb_false_intro2, N.leb_gt. lia.
Qed.

(** On a string of digits [int] reads the number it denotes. *)
Lemma int_of_digits (s : string) :
  Py.isdigit s = true -> Py.int s = Ok (decimal s).
Proof.
  destruct s as [|c s]; [discriminate|].
  intros H. pose proof (isdigit_all_chars _ H) as Hall.
  simpl in Hall. apply andb_prop in Hall as [Hc Hs].
  unfold Py.int. simpl Py.lstrip. rewrite (digit_is_not_space c Hc).
  assert (Hplus : Ascii.eqb c "+" = false) by (apply digit_is_not; auto).
  assert (Hminus : Ascii.eqb c "-" = false) by (apply digit_is_not; auto).
  assert (Hscan : Py.scan_digits Py.Nothing 0 (String c s)
                  = Some (decimal (String c s))).
  { simpl. rewrite Hc. unfold decimal. simpl. apply scan_digits_decimal, Hs. }
  destruct c as [[] [] [] [] [] [] [] []];
    try discriminate Hplus; try discriminate Hminus; rewrite Hscan; reflexivity.
Qed.

Lemma parse_duration_with_length (video : Video.t) (c : ascii) (s : string) :
  parse_duration (with_length video (String c s)) =
  (seconds ←
     match Py.split ":" (String c s) with
     | [n0] => if Py.isdigit n0 then Py.int n0 else Ok 0
     | [n0; _] => a ← Py.int n0; b ← Py.int n0; Ok (a * 60 + b)
     | [n0; _; _] =>
         a ← Py.int n0; b ← Py.int n0; c ← Py.int n0;
         Ok (a * 60 * 60 + b * 60 + c)
     | _ => Ok 0
     end;
   Ok (seconds * 1000)).
Proof. reflexivity. Qed.

(** C2: on "S", "M:S" and "H:M:S" with fields of digits only the parser
    returns milliseconds, 1000 times a number of seconds in which every
    term is the value of the first field: first, first*60 + first, and
    first*60*60 + first*60 + first. *)
Theorem parse_duration_reuses_first_field (video : Video.t) (a b c : string) :
  Py.isdigit a = true -> Py.isdigit b = true -> Py.isdigit c = true ->
  parse_duration (with_length video a) = Ok (decimal a * 1000)
  /\ parse_duration (with_length video (a ++ ":" ++ b))
     = Ok ((decimal a * 60 + decimal a) * 1000)
  /\ parse_duration (with_length video (a ++ ":" ++ b ++ ":" ++ c))
     = Ok ((decimal a * 60 * 60 + decimal a * 60 + decimal a) * 1000).
Proof.
  intros Ha Hb Hc.
  pose proof (isdigit_all_chars _ Ha) as Ha'.
  pose proof (isdigit_all_chars _ Hb) as Hb'.
  pose proof (isdigit_all_chars _ Hc) as Hc'.
  assert (Hsep : Py.is_ascii_digit ":" = false) by reflexivity.
  destruct a as [|a0 a]; [discriminate|].
  repeat split.
  - rewrite parse_duration_with_length, (split_field _ _ Hsep Ha'), Ha.
    rewrite (int_of_digits _ Ha). reflexivity.
  - change (String a0 a ++ ":" ++ b) with (String a0 (a ++ ":" ++ b)).
    rewrite parse_duration_with_length.
    change (String a0 (a ++ ":" ++ b)) with (String a0 a ++ String ":" b).
    rewrite (split_fields _ _ _ Hsep Ha'), (split_field _ _ Hsep Hb').
    rewrite (int_of_digits _ Ha). reflexivity.
  - change (String a0 a ++ ":" ++ b ++ ":" ++ c)
      with (String a0 (a ++ ":" ++ b ++ ":" ++ c)).
    rewrite parse_duration_with_length.
    change (String a0 (a ++ ":" ++ b ++ ":" ++ c))
      with (String a0 a ++ String ":" (b ++ String ":" c)).
    rewrite (split_fields _ _ _ Hsep Ha'), (split_fields _ _ _ Hsep Hb'),
      (split_field _ _ Hsep Hc').
    rewrite (int_of_digits _ Ha). reflexivity.
Qed.

(** "45" is 45000 ms, "1:30" is 61000 ms and "2:03:04" is 7322000 ms. *)
Lemma parse_duration_reuses_first_field_witness :
  parse_duration (Fixture.video "clip" (Some "45") []) = Ok 45000
  /\ parse_duration (Fixture.video "clip" (Some "1:30") []) = Ok 61000
  /\ parse_duration (Fixture.video "clip" (Some "2:03:04") []) = Ok 7322000.
Proof.
  split; [|split].
  - exact (proj1 (parse_duration_reuses_first_field
                    (Fixture.video "clip" None []) "45" "0" "0"
                    eq_refl eq_refl eq_refl)).
  - exact (proj1 (proj2 (parse_duration_reuses_first_field
                           (Fixture.video "clip" None []) "1" "30" "0"
                           eq_refl eq_refl eq_refl))).
  - exact (proj2 (proj2 (parse_duration_reuses_first_field
                           (Fixture.video "clip" None []) "2" "03" "04"
                           eq_refl eq_refl eq_refl))).
Defined.

(** ** Comprehensions *)

Lemma bind_Ok {A B : Type} (m : result A) (k : A -> result B) (b : B) :
  m ≫= k = Ok b <-> exists a, m = Ok a /\ k a = Ok b.
Proof.
  destruct m as [a|e]; simpl; split.
  - intros H. exists a. auto.
  - intros (a' & [= <-] & H). exact H.
  - discriminate.
  - intros (a' & [=] & _).
Qed.

(** Destructs every bind of a hypothesis that says a computation returned. *)
Ltac returned H :=
  repeat match type of H with
    | _ ≫= _ = Ok _ =>
        let a := fresh "a" in
        let Ha := fresh "Ha" in
        apply bind_Ok in H as (a & Ha & H)
    | Ok _ = Ok _ => injection H as H
    end.

Lemma comprehension_Forall2 {A B : Type} (f : A -> result B) xs ys :
  comprehension f xs = Ok ys <-> Forall2 (fun x y => f x = Ok y) xs ys.
Proof.
  revert ys. induction xs as [|x xs IH]; intros ys; simpl.
  - split.
    + intros [= <-]. constructor.
    + intros H. inversion H. reflexivity.
  - split.
    + intros H. returned H. subst ys. constructor; [assumption|].
      apply IH. assumption.
    + intros H. inversion H as [|? y ? ys' Hy Hys]; subst.
      rewrite Hy. simpl. apply IH in Hys. rewrite Hys. reflexivity.
Qed.

Lemma comprehension_length {A B : Type} (f : A -> result B) xs ys :
  comprehension f xs = Ok ys -> length ys = length xs.
Proof.
  intros H%comprehension_Forall2. symmetry. eapply Forall2_length, H.
Qed.

Lemma enumerate_from_length {A : Type} (k : nat) (xs : list A) :
  length (enumerate_from k xs) = length xs.
Proof. revert k. induction xs; intros k; simpl; auto. Qed.

Lemma enumerate_from_lookup {A : Type} (k i : nat) (xs : list A) :
  enumerate_from k xs !! i = (fun x => ((k + i)%nat, x)) <$> xs !! i.
Proof.
  revert k i. induction xs as [|x xs IH]; intros k i; [reflexivity|].
  destruct i as [|i]; simpl.
  - rewrite Nat.add_0_r. reflexivity.
  - rewrite IH. replace (S k + i)%nat with (k + S i)%nat by lia. reflexivity.
Qed.

Lemma enumerate_length {A : Type} (xs : list A) :
  length (enumerate xs) = length xs.
Proof. apply enumerate_from_length. Qed.

Lemma enumerate_lookup {A : Type} (i : nat) (xs : list A) :
  enumerate xs !! i = (fun x => (i, x)) <$> xs !! i.
Proof. apply (enumerate_from_lookup 0). Qed.

(** What a comprehension over [enumerate] returns, position by position. *)
Lemma comprehension_enumerate_lookup {A B : Type}
    (f : nat * A -> result B) (xs : list A) (ys : list B) :
  comprehension f (enumerate xs) = Ok ys ->
  length ys = length xs
  /\ (forall i y, ys !! i = Some y ->
        exists x, xs !! i = Some x /\ f (i, x) = Ok y)
  /\ (forall i x, xs !! i = Some x ->
        exists y, ys !! i = Some y /\ f (i, x) = Ok y).
Proof.
  intros H. pose proof (comprehension_length _ _ _ H) as Hlen.
  rewrite enumerate_length in Hlen. split; [exact Hlen|].
  apply comprehension_Forall2 in H. split.
  - intros i y Hy.
    destruct (Forall2_lookup_r _ _ _ _ _ H Hy) as ([j x] & Hx & Hf).
    rewrite enumerate_lookup in Hx.
    destruct (xs !! i) as [x'|] eqn:E; simpl in Hx; [|discriminate].
    injection Hx as <- <-. eauto.
  - intros i x Hx.
    assert (Hix : enumerate xs !! i = Some (i, x))
      by (rewrite enumerate_lookup, Hx; reflexivity).
    destruct (Forall2_lookup_l _ _ _ _ _ H Hix) as (y & Hy & Hf). eauto.
Qed.

(** ** The three dictionaries *)

Section Matches.

Variable voc_match : string -> string -> bool.
Variable fuzzy_match : string -> string -> Q.
Variable self : SimpleYoutubeSkill.
Variable phrase : string.
Variable media_type : CommonPlayMediaType.t.
Variable base_score : Z.
Variable explicit_request : bool.

Let score := calc_score voc_match fuzzy_match self phrase media_type
               base_score explicit_request.

Lemma video_match_returns (idx : nat) (r : Video.t) (m : Match.t) :
  video_match voc_match fuzzy_match self phrase media_type base_score
    explicit_request (idx, r) = Ok m <->
  exists len img,
    parse_duration r = Ok len /\ thumbnail r = Ok img /\
    m = {| Match.match_confidence := score r idx;
           Match.media_type := CommonPlayMediaType.VIDEO;
           Match.length := len;
           Match.uri := Video.url r;
           Match.playback := CommonPlayPlaybackType.VIDEO;
           Match.image := img;
           Match.bg_image := img;
           Match.skill_icon := skill_icon self;
           Match.skill_logo := skill_icon self;
           Match.title := Video.title r;
           Match.skill_id := skill_id self |}.
Proof.
  unfold video_match. split.
  - intros H. returned H. exists a, a0. repeat split; try assumption.
    rewrite Ha0 in Ha1. injection Ha1 as <-. symmetry. exact H.
  - intros (len & img & -> & -> & ->). reflexivity.
Qed.

Lemma audio_only_match_returns (idx : nat) (r : Video.t) (m : Match.t) :
  audio_only_match voc_match fuzzy_match self phrase media_type base_score
    explicit_request (idx, r) = Ok m <->
  exists len img,
    parse_duration r = Ok len /\ thumbnail r = Ok img /\
    m = {| Match.match_confidence := score r idx;
           Match.media_type := CommonPlayMediaType.VIDEO;
           Match.length := len;
           Match.uri := Video.url r;
           Match.playback := CommonPlayPlaybackType.AUDIO;
           Match.image := img;
           Match.bg_image := img;
           Match.skill_icon := skill_icon self;
           Match.skill_logo := skill_icon self;
           Match.title := Video.title r ++ " (audio only)";
           Match.skill_id := skill_id self |}.
Proof.
  unfold audio_only_match. split.
  - intros H. returned H. exists a, a0. repeat split; try assumption.
    rewrite Ha0 in Ha1. injection Ha1 as <-. symmetry. exact H.
  - intros (len & img & -> & -> & ->). reflexivity.
Qed.

Lemma audio_duplicate_match_returns (idx : nat) (r : Video.t) (m : Match.t) :
  audio_duplicate_match voc_match fuzzy_match self phrase media_type
    base_score explicit_request (idx, r) = Ok m <->
  exists len img,
    parse_duration r = Ok len /\ thumbnail r = Ok img /\
    m = {| Match.match_confidence := (score r idx - 1)%Q;
           Match.media_type := CommonPlayMediaType.VIDEO;
           Match.length := len;
           Match.uri := Video.url r;
           Match.playback := CommonPlayPlaybackType.AUDIO;
           Match.image := img;
           Match.bg_image := img;
           Match.skill_icon := skill_icon self;
           Match.skill_logo := skill_icon self;
           Match.title := Video.title r ++ " (audio only)";
           Match.skill_id := skill_id self |}.
Proof.
  unfold audio_duplicate_match. split.
  - intros H. returned H. exists a, a0. repeat split; try assumption.
    rewrite Ha0 in Ha1. injection Ha1 as <-. symmetry. exact H.
  - intros (len & img & -> & -> & ->). reflexivity.
Qed.

End Matches.

(** ** The shape of an invocation *)

Section Invocation.

Variable voc_match : string -> string -> bool.
Variable remove_voc : string -> string -> string.
Variable fuzzy_match : string -> string -> Q.
Variable youtube_searcher : string -> option (list Video.t).

Lemma fetched_settings self phrase results self' :
  fetched youtube_searcher self phrase results self' ->
  settings self' = settings self
  /\ skill_icon self' = skill_icon self
  /\ skill_id self' = skill_id self.
Proof. intros [[_ ->]|(_ & _ & ->)]; auto. Qed.

(** An invocation ends in one of two ways: the provider raised and the
    method returned the empty list, or results were fetched, filtered
    and turned into matches. *)
Lemma search_youtube_cases self phrase media_type outcome self' :
  search_youtube voc_match remove_voc fuzzy_match youtube_searcher
    self phrase media_type = (outcome, self') ->
  let base_score := (normalise voc_match remove_voc phrase media_type).1.1 in
  let explicit_request :=
    (normalise voc_match remove_voc phrase media_type).2 in
  let phrase' := searched_phrase voc_match remove_voc phrase media_type in
  (search_cache self !! phrase' = None
   /\ youtube_searcher phrase' = None
   /\ outcome = Ok [] /\ self' = self)
  \/ exists results,
       fetched youtube_searcher self phrase' results self'
       /\ outcome =
            (filtered ← filter_results voc_match media_type results;
             build_matches voc_match fuzzy_match self' phrase' media_type
               base_score explicit_request filtered).
Proof.
  unfold search_youtube, searched_phrase.
  destruct (normalise voc_match remove_voc phrase media_type)
    as [[base phrase'] explicit]; simpl.
  destruct (search_cache self !! phrase') as [results|] eqn:Hcache.
  - intros [= <- <-]. right. exists results. split; [left; auto|reflexivity].
  - destruct (youtube_searcher phrase') as [results|] eqn:Hprov.
    + intros [= <- <-]. right. exists results.
      split; [right; auto|reflexivity].
    + intros [= <- <-]. left. auto.
Qed.

Section Build.

Variable self : SimpleYoutubeSkill.
Variable phrase : string.
Variable media_type : CommonPlayMediaType.t.
Variable base_score : Z.
Variable explicit_request : bool.

Let build := build_matches voc_match fuzzy_match self phrase media_type
               base_score explicit_request.
Let video := video_match voc_match fuzzy_match self phrase media_type
               base_score explicit_request.
Let audio := audio_only_match voc_match fuzzy_match self phrase
               media_type base_score explicit_request.
Let duplicate := audio_duplicate_match voc_match fuzzy_match self phrase
                   media_type base_score explicit_request.

Lemma build_matches_audio_only results ms :
  audio_only (settings self) = true ->
  build results = Ok ms <->
  comprehension audio (enumerate results) = Ok ms.
Proof.
  intros Ha. unfold build, audio, build_matches. rewrite Ha. split.
  - intros H. returned H. subst ms. exact Ha0.
  - intros ->. reflexivity.
Qed.

Lemma build_matches_video_only results ms :
  audio_only (settings self) = false ->
  video_only (settings self) = true ->
  build results = Ok ms <->
  comprehension video (enumerate results) = Ok ms.
Proof.
  intros Ha Hv. unfold build, video, build_matches. rewrite Ha, Hv.
  cbn [negb]. split.
  - intros H. returned H. subst ms. exact Ha0.
  - intros ->. reflexivity.
Qed.

Lemma build_matches_both results ms :
  audio_only (settings self) = false ->
  video_only (settings self) = false ->
  build results = Ok ms <->
  exists vs ds,
    comprehension video (enumerate results) = Ok vs
    /\ comprehension duplicate (enumerate results) = Ok ds
    /\ ms = (vs ++ ds)%list.
Proof.
  intros Ha Hv. unfold build, video, duplicate, build_matches.
  rewrite Ha, Hv. cbn [negb]. split.
  - intros H. returned H. exists a, a0. auto.
  - intros (vs & ds & -> & -> & ->). reflexivity.
Qed.

End Build.

End Invocation.

(** ** The number of matches and the audio duplicates *)

(** C9: the matches built from a filtered result sequence are twice as
    many as the results when neither [audio_only] nor [video_only] is set,
    and as many as the results when one of them is. *)
Theorem build_matches_count voc_match fuzzy_match self phrase media_type
    base_score explicit_request (results : list Video.t) (ms : list Match.t) :
  build_matches voc_match fuzzy_match self phrase media_type base_score
    explicit_request results = Ok ms ->
  length ms =
    ((if audio_only (settings self) || video_only (settings self)
      then 1 else 2) * length results)%nat.
Proof.
  intros H.
  destruct (audio_only (settings self)) eqn:Ha.
  - apply build_matches_audio_only in H; [|exact Ha].
    apply comprehension_enumerate_lookup in H as [-> _]. simpl. lia.
  - destruct (video_only (settings self)) eqn:Hv.
    + apply build_matches_video_only in H; [|exact Ha|exact Hv].
      apply comprehension_enumerate_lookup in H as [-> _]. simpl. lia.
    + apply build_matches_both in H as (vs & ds & Hvs & Hds & ->);
        [|exact Ha|exact Hv].
      apply comprehension_enumerate_lookup in Hvs as [Hvs _].
      apply comprehension_enumerate_lookup in Hds as [Hds _].
      rewrite length_app, Hvs, Hds. simpl. lia.
Qed.

(** C8: with [audio_only] and [video_only] both off, every match with
    playback VIDEO is followed, as many places later as there are videos,
    by a match with playback AUDIO for the same result: confidence one
    less, same uri, length and images, and the title with the audio-only
    marker appended. *)
Theorem audio_duplicate_of_every_video voc_match remove_voc fuzzy_match
    youtube_searcher self phrase media_type (ms : list Match.t) self' :
  audio_only (settings self) = false ->
  video_only (settings self) = false ->
  search_youtube voc_match remove_voc fuzzy_match youtube_searcher
    self phrase media_type = (Ok ms, self') ->
  forall i v,
    ms !! i = Some v ->
    Match.playback v = CommonPlayPlaybackType.VIDEO ->
    exists n d,
      length ms = (2 * n)%nat
      /\ (i < n)%nat
      /\ ms !! (n + i)%nat = Some d
      /\ Match.playback d = CommonPlayPlaybackType.AUDIO
      /\ Match.match_confidence d = (Match.match_confidence v - 1)%Q
      /\ Match.uri d = Match.uri v
      /\ Match.title d = Match.title v ++ " (audio only)"
      /\ Match.length d = Match.length v
      /\ Match.image d = Match.image v
      /\ Match.bg_image d = Match.bg_image v.
Proof.
  intros Ha Hv Hrun i v Hi Hplay.
  apply search_youtube_cases in Hrun
    as [(_ & _ & [= ->] & _)|(results & Hfetch & Hout)];
    [discriminate Hi|].
  symmetry in Hout. apply bind_Ok in Hout as (filtered & _ & Hbuild).
  destruct (fetched_settings _ _ _ _ _ Hfetch) as (Hset & _).
  apply build_matches_both in Hbuild as (vs & ds & Hvs & Hds & ->);
    [|rewrite Hset; exact Ha|rewrite Hset; exact Hv].
  apply comprehension_enumerate_lookup in Hvs as (Hlv & Hvs & _).
  apply comprehension_enumerate_lookup in Hds as (Hld & Hds & Hds').
  destruct (decide (i < length vs)%nat) as [Hlt|Hge].
  - rewrite lookup_app_l in Hi by exact Hlt.
    destruct (Hvs _ _ Hi) as (r & Hr & Hvideo).
    destruct (Hds' _ _ Hr) as (d & Hd & Hdup).
    apply video_match_returns in Hvideo as (len & img & Hlen & Himg & ->).
    apply audio_duplicate_match_returns in Hdup
      as (len' & img' & Hlen' & Himg' & Hdup).
    rewrite Hlen in Hlen'. injection Hlen' as <-.
    rewrite Himg in Himg'. injection Himg' as <-.
    exists (length vs), d.
    split; [rewrite length_app; lia|].
    split; [exact Hlt|].
    split.
    + rewrite lookup_app_r by lia.
      replace (length vs + i - length vs)%nat with i by lia. exact Hd.
    + rewrite Hdup. simpl. repeat split.
  - rewrite lookup_app_r in Hi by lia.
    destruct (Hds _ _ Hi) as (r & _ & Hdup).
    apply audio_duplicate_match_returns in Hdup as (len & img & _ & _ & ->).
    discriminate Hplay.
Qed.

(** ** The provider call and the cache *)

(** C10: when the searched phrase is not in the cache and the provider
    raises, the method returns the empty list and the skill, its cache
    included, is as before; and whatever an invocation does, the cache
    afterwards is the cache before, or the cache before with the results
    the provider returned entered under the searched phrase. *)
Theorem provider_failure_returns_no_matches voc_match remove_voc fuzzy_match
    youtube_searcher self phrase media_type :
  let phrase' := searched_phrase voc_match remove_voc phrase media_type in
  let run := search_youtube voc_match remove_voc fuzzy_match youtube_searcher
               self phrase media_type in
  (search_cache self !! phrase' = None ->
   youtube_searcher phrase' = None ->
   run = (Ok [], self))
  /\ (search_cache run.2 = search_cache self
      \/ exists results,
           search_cache self !! phrase' = None
           /\ youtube_searcher phrase' = Some results
           /\ search_cache run.2 = <[phrase' := results]> (search_cache self)).
Proof.
  intros phrase' run.
  destruct run as [outcome self'] eqn:Hrun. unfold run in Hrun.
  pose proof (search_youtube_cases _ _ _ _ _ _ _ _ _ Hrun) as Hcases.
  fold phrase' in Hcases. simpl in Hcases. split.
  - intros Hmiss Hraise.
    destruct Hcases as [(_ & _ & -> & ->)|(results & Hfetch & _)];
      [reflexivity|].
    destruct Hfetch as [[Hhit _]|(_ & Hprov & _)]; congruence.
  - simpl. destruct Hcases as [(_ & _ & _ & ->)|(results & Hfetch & _)];
      [left; reflexivity|].
    destruct Hfetch as [[_ ->]|(Hmiss & Hprov & ->)];
      [left; reflexivity|].
    right. exists results. auto.
Qed.

(** ** The theorems at work on the small deployment *)

(** Four results give eight matches when both forms are built. *)
Lemma build_matches_count_witness :
  length
    (Fixture.matches_of
       (build_matches Fixture.voc_match Fixture.fuzzy_match
          (Fixture.skill Fixture.both_forms) "rock music"
          CommonPlayMediaType.GENERIC 0 false Fixture.rock_music_videos))
  = 8%nat.
Proof.
  exact (build_matches_count Fixture.voc_match Fixture.fuzzy_match
           (Fixture.skill Fixture.both_forms) "rock music"
           CommonPlayMediaType.GENERIC 0 false Fixture.rock_music_videos
           _ eq_refl).
Defined.

(** The one video found for "big buck bunny" comes with its audio
    duplicate one place later. *)
Lemma audio_duplicate_of_every_video_witness :
  let ms := Fixture.matches_of (Fixture.search Fixture.both_forms
                                  "big buck bunny" CommonPlayMediaType.VIDEO) in
  let v := Fixture.match_at 0 (Fixture.search Fixture.both_forms
                                 "big buck bunny" CommonPlayMediaType.VIDEO) in
  exists n d,
    length ms = (2 * n)%nat
    /\ (0 < n)%nat
    /\ ms !! (n + 0)%nat = Some d
    /\ Match.playback d = CommonPlayPlaybackType.AUDIO
    /\ Match.match_confidence d = (Match.match_confidence v - 1)%Q
    /\ Match.uri d = Match.uri v
    /\ Match.title d = Match.title v ++ " (audio only)"
    /\ Match.length d = Match.length v
    /\ Match.image d = Match.image v
    /\ Match.bg_image d = Match.bg_image v.
Proof.
  exact (audio_duplicate_of_every_video Fixture.voc_match Fixture.remove_voc
           Fixture.fuzzy_match Fixture.youtube_searcher
           (Fixture.skill Fixture.both_forms) "big buck bunny"
           CommonPlayMediaType.VIDEO
           (Fixture.matches_of (Fixture.search Fixture.both_forms
                                  "big buck bunny" CommonPlayMediaType.VIDEO))
           (Fixture.run Fixture.both_forms "big buck bunny"
              CommonPlayMediaType.VIDEO).2
           eq_refl eq_refl eq_refl 0%nat
           (Fixture.match_at 0 (Fixture.search Fixture.both_forms
                                  "big buck bunny" CommonPlayMediaType.VIDEO))
           eq_refl eq_refl).
Defined.

(** The provider raises on "unknown": no matches, and the skill as it was. *)
Lemma provider_failure_returns_no_matches_witness :
  Fixture.run default_settings "unknown" CommonPlayMediaType.GENERIC
  = (Ok [], Fixture.skill default_settings).
Proof.
  exact (proj1 (provider_failure_returns_no_matches Fixture.voc_match
                  Fixture.remove_voc Fixture.fuzzy_match
                  Fixture.youtube_searcher (Fixture.skill default_settings)
                  "unknown" CommonPlayMediaType.GENERIC)
           eq_refl eq_refl).
Defined.

(** ** Where the method departs from its description *)

(** The secondary penalty of [calc_score], as the method applies it under
    a MUSIC request: once the running score has reached 100 it takes ten
    points, whether or not the title is in the music vocabulary.  The
    branch that would take five is behind [media_type != VIDEO] and is
    never reached. *)
Lemma score_before_min_music voc_match fuzzy_match self phrase base_score
    explicit_request (m : Video.t) (idx : nat) :
  score_before_min voc_match fuzzy_match self phrase
    CommonPlayMediaType.MUSIC base_score explicit_request m idx =
  (let score :=
     inject_Z (base_score - Z.of_nat idx * 5)
     + 100 * fuzzy_match (Py.lower phrase) (Py.lower (Video.title m)) in
   let score := if Py.ge score 100 then score - 10 else score in
   if fallback_mode (settings self) then
     if negb explicit_request then score - 25 else score
   else score)%Q.
Proof. reflexivity. Qed.

(** C1: a MUSIC request in fallback mode for "rock music".  The one result
    the music filter keeps is titled "Rock Music", a full fuzzy match: its
    running score is 15 + 100 = 115, the method takes 10 and then 25 and
    the confidence is 80, where a candidate that classifies as music was
    to lose nothing at the ceiling and end at 90.  Without fallback mode,
    as fourth result (index 3) of a MUSIC request with base score 15, the
    same video scores 100 - 10 = 90 instead of 100. *)
Theorem music_request_loses_ten_at_the_ceiling :
  Fixture.confidences
    (Fixture.search (Fixture.fallback default_settings) "rock music"
       CommonPlayMediaType.MUSIC) = Ok [80%Q]
  /\ is_music Fixture.voc_match
       (Fixture.video "Rock Music" (Some "3:49") Fixture.thumbs) = true
  /\ calc_score Fixture.voc_match Fixture.fuzzy_match
       (Fixture.skill default_settings) "rock music"
       CommonPlayMediaType.MUSIC 15 false
       (Fixture.video "Rock Music" (Some "3:49") Fixture.thumbs) 3 = 90%Q.
Proof. repeat split; vm_compute; reflexivity. Qed.

(** C4: an AUDIO request with the default settings.  The allowed playback
    forms are [AUDIO] alone, yet every match the method returns has
    playback VIDEO: the list of forms is never consulted. *)
Theorem audio_request_returns_video_playback :
  playback_forms (Fixture.skill default_settings) CommonPlayMediaType.AUDIO
  = [CommonPlayPlaybackType.AUDIO]
  /\ Fixture.playbacks
       (Fixture.search default_settings "rock music" CommonPlayMediaType.AUDIO)
     = Ok [CommonPlayPlaybackType.VIDEO; CommonPlayPlaybackType.VIDEO;
           CommonPlayPlaybackType.VIDEO; CommonPlayPlaybackType.VIDEO].
Proof. split; vm_compute; reflexivity. Qed.

(** C5: a single field that is not a number gives 0, as described; with
    two or three fields the first is converted unguarded, so "a:30" raises
    ValueError, and "1:xx", whose second field is not a number, gives
    61000 rather than 0. *)
Theorem parse_duration_guards_one_field_only :
  parse_duration (Fixture.video "clip" (Some "abc") []) = Ok 0
  /\ parse_duration (Fixture.video "clip" (Some "a:30") []) = Raise ValueError
  /\ parse_duration (Fixture.video "clip" (Some "1:a:30") [])
     = Ok 3661000
  /\ parse_duration (Fixture.video "clip" (Some ":30") []) = Raise ValueError
  /\ parse_duration (Fixture.video "clip" (Some "1:xx") []) = Ok 61000.
Proof. repeat split; vm_compute; reflexivity. Qed.



(** ** The ceiling *)

Lemma lt_true (x y : Q) : Py.lt x y = true <-> (x < y)%Q.
Proof.
  unfold Py.lt. rewrite negb_true_iff. split.
  - intros H. apply Qnot_le_lt. intros Hle.
    apply Qle_bool_iff in Hle. congruence.
  - intros H. destruct (Qle_bool y x) eqn:E; [|reflexivity].
    apply Qle_bool_iff in E. apply Qlt_not_le in H. contradiction.
Qed.

Lemma lt_false (x y : Q) : Py.lt x y = false <-> (y <= x)%Q.
Proof.
  unfold Py.lt. rewrite negb_false_iff. apply Qle_bool_iff.
Qed.

Lemma min_100_le_100 (x : Q) : (Py.min_100 x <= 100)%Q.
Proof.
  unfold Py.min_100. destruct (Py.lt x 100) eqn:E.
  - apply lt_true in E. apply Qlt_le_weak, E.
  - apply Qle_refl.
Qed.

Lemma min_100_le (x : Q) : (Py.min_100 x <= x)%Q.
Proof.
  unfold Py.min_100. destruct (Py.lt x 100) eqn:E.
  - apply Qle_refl.
  - apply lt_false in E. exact E.
Qed.


(** ** When the method returns *)

Lemma comprehension_returns {A B : Type} (f : A -> result B) (xs : list A) :
  Forall (fun x => exists y, f x = Ok y) xs ->
  exists ys, comprehension f xs = Ok ys.
Proof.
  induction 1 as [|x xs [y Hy] _ [ys Hys]]; simpl.
  - exists []. reflexivity.
  - exists (y :: ys). rewrite Hy. simpl. rewrite Hys. reflexivity.
Qed.

Lemma comprehension_if_returns {A : Type} (p : A -> result bool)
    (P : A -> Prop) (xs : list A) :
  Forall (fun x => exists b, p x = Ok b) xs ->
  Forall P xs ->
  exists ys, comprehension_if p xs = Ok ys /\ Forall P ys.
Proof.
  induction 1 as [|x xs [b Hb] _ IH]; simpl; intros HP.
  - exists []. split; [reflexivity|constructor].
  - inversion HP as [|? ? Hx Hxs]; subst.
    destruct (IH Hxs) as (ys & Hys & HPys).
    rewrite Hb. simpl. rewrite Hys. simpl.
    destruct b; eexists; (split; [reflexivity|]); auto.
Qed.

Lemma enumerate_from_Forall {A : Type} (P : A -> Prop) (k : nat) (xs : list A) :
  Forall P xs -> Forall (fun entry => P entry.2) (enumerate_from k xs).
Proof.
  intros H. revert k. induction H; intros k; simpl; constructor; auto.
Qed.

Lemma split_not_empty (sep : ascii) (s : string) : Py.split sep s <> [].
Proof.
  destruct s as [|c s]; simpl; [discriminate|].
  destruct (Ascii.eqb c sep); [discriminate|].
  destruct (Py.split sep s); discriminate.
Qed.

Lemma getitem_first {A : Type} (xs : list A) :
  xs <> [] -> exists x, Py.getitem xs 0 = Ok x.
Proof.
  destruct xs as [|x xs]; [congruence|]. intros _. exists x.
  unfold Py.getitem. simpl length.
  replace (0 <? 0) with false by reflexivity.
  replace (0 <? 0) with false by reflexivity.
  destruct (Z.of_nat (S (length xs)) <=? 0) eqn:E; [|reflexivity].
  apply Z.leb_le in E. lia.
Qed.

Lemma getitem_last {A : Type} (xs : list A) :
  xs <> [] -> exists x, Py.getitem xs (-1) = Ok x.
Proof.
  intros Hne. unfold Py.getitem.
  replace (-1 <? 0) with true by reflexivity.
  assert (Hlen : (0 < length xs)%nat)
    by (destruct xs; [congruence|simpl; lia]).
  destruct (-1 + Z.of_nat (length xs) <? 0) eqn:E1;
    [apply Z.ltb_lt in E1; lia|].
  destruct (Z.of_nat (length xs) <=? -1 + Z.of_nat (length xs)) eqn:E2;
    [apply Z.leb_le in E2; lia|].
  simpl.
  destruct (xs !! Z.to_nat (-1 + Z.of_nat (length xs))) as [x|] eqn:E3.
  - eauto.
  - apply lookup_ge_None in E3. lia.
Qed.

Lemma thumbnail_returns (r : Video.t) :
  has_thumbnail r = true -> exists img, thumbnail r = Ok img.
Proof.
  unfold has_thumbnail, thumbnail. intros H.
  destruct (getitem_last (Video.thumbnails r)) as [last ->].
  { destruct (Video.thumbnails r); [discriminate|congruence]. }
  simpl. apply getitem_first, split_not_empty.
Qed.

Lemma parse_duration_returns (r : Video.t) :
  duration_in_range r = true -> exists ms, parse_duration r = Ok ms.
Proof.
  unfold duration_in_range. destruct (parse_duration r); [eauto|discriminate].
Qed.

Section Returns.

Variable voc_match : string -> string -> bool.
Variable remove_voc : string -> string -> string.
Variable fuzzy_match : string -> string -> Q.
Variable youtube_searcher : string -> option (list Video.t).

Lemma search_youtube_fetched self phrase media_type results self' :
  fetched youtube_searcher self
    (searched_phrase voc_match remove_voc phrase media_type) results self' ->
  search_youtube voc_match remove_voc fuzzy_match youtube_searcher
    self phrase media_type =
  (filtered ← filter_results voc_match media_type results;
   build_matches voc_match fuzzy_match self'
     (searched_phrase voc_match remove_voc phrase media_type) media_type
     (normalise voc_match remove_voc phrase media_type).1.1
     (normalise voc_match remove_voc phrase media_type).2 filtered,
   self').
Proof.
  unfold search_youtube, searched_phrase.
  destruct (normalise voc_match remove_voc phrase media_type)
    as [[base phrase'] explicit]; simpl.
  intros [[-> ->]|(-> & -> & ->)]; reflexivity.
Qed.


Lemma build_matches_returns self phrase media_type base_score
    explicit_request (results : list Video.t) :
  Forall well_formed results ->
  exists ms,
    build_matches voc_match fuzzy_match self phrase media_type base_score
      explicit_request results = Ok ms.
Proof.
  intros Hwf.
  assert (Hfields : forall r, well_formed r ->
            exists len img, parse_duration r = Ok len /\ thumbnail r = Ok img).
  { intros r [Ht Hd].
    destruct (thumbnail_returns r Ht) as [img Himg].
    destruct (parse_duration_returns r Hd) as [len Hlen]. eauto. }
  assert (Hvideo : exists vs,
            comprehension
              (video_match voc_match fuzzy_match self phrase media_type
                 base_score explicit_request) (enumerate results) = Ok vs).
  { apply comprehension_returns.
    eapply Forall_impl; [apply enumerate_from_Forall, Hwf|].
    intros [i r] (len & img & Hlen & Himg)%Hfields.
    eexists. apply video_match_returns. eauto. }
  assert (Haudio : exists vs,
            comprehension
              (audio_only_match voc_match fuzzy_match self phrase media_type
                 base_score explicit_request) (enumerate results) = Ok vs).
  { apply comprehension_returns.
    eapply Forall_impl; [apply enumerate_from_Forall, Hwf|].
    intros [i r] (len & img & Hlen & Himg)%Hfields.
    eexists. apply audio_only_match_returns. eauto. }
  assert (Hdup : exists vs,
            comprehension
              (audio_duplicate_match voc_match fuzzy_match self phrase
                 media_type base_score explicit_request)
              (enumerate results) = Ok vs).
  { apply comprehension_returns.
    eapply Forall_impl; [apply enumerate_from_Forall, Hwf|].
    intros [i r] (len & img & Hlen & Himg)%Hfields.
    eexists. apply audio_duplicate_match_returns. eauto. }
  destruct Hvideo as [vs Hvs], Haudio as [aus Haus], Hdup as [ds Hds].
  destruct (audio_only (settings self)) eqn:Ha.
  - exists aus. apply build_matches_audio_only; assumption.
  - destruct (video_only (settings self)) eqn:Hv.
    + exists vs. apply build_matches_video_only; assumption.
    + exists (vs ++ ds)%list. apply build_matches_both; eauto.
Qed.

End Returns.

(** ** The confidence of a match *)

(** Every match carries the score of one of the results, or that score
    less one. *)
Lemma build_matches_confidence voc_match fuzzy_match self phrase media_type
    base_score explicit_request (results : list Video.t) ms j m :
  build_matches voc_match fuzzy_match self phrase media_type base_score
    explicit_request results = Ok ms ->
  ms !! j = Some m ->
  exists i r,
    results !! i = Some r
    /\ (Match.match_confidence m
        = calc_score voc_match fuzzy_match self phrase media_type base_score
            explicit_request r i
        \/ Match.match_confidence m
           = (calc_score voc_match fuzzy_match self phrase media_type
                base_score explicit_request r i - 1)%Q).
Proof.
  intros Hbuild Hm.
  destruct (audio_only (settings self)) eqn:Ha.
  - apply build_matches_audio_only in Hbuild; [|exact Ha].
    apply comprehension_enumerate_lookup in Hbuild as (_ & Hms & _).
    destruct (Hms _ _ Hm) as (r & Hr & Hmatch).
    apply audio_only_match_returns in Hmatch as (len & img & _ & _ & ->).
    exists j, r. auto.
  - destruct (video_only (settings self)) eqn:Hv.
    + apply build_matches_video_only in Hbuild; [|exact Ha|exact Hv].
      apply comprehension_enumerate_lookup in Hbuild as (_ & Hms & _).
      destruct (Hms _ _ Hm) as (r & Hr & Hmatch).
      apply video_match_returns in Hmatch as (len & img & _ & _ & ->).
      exists j, r. auto.
    + apply build_matches_both in Hbuild as (vs & ds & Hvs & Hds & ->);
        [|exact Ha|exact Hv].
      apply comprehension_enumerate_lookup in Hvs as (_ & Hvs & _).
      apply comprehension_enumerate_lookup in Hds as (_ & Hds & _).
      apply lookup_app_Some in Hm as [Hm|[_ Hm]].
      * destruct (Hvs _ _ Hm) as (r & Hr & Hmatch).
        apply video_match_returns in Hmatch as (len & img & _ & _ & ->).
        exists j, r. auto.
      * destruct (Hds _ _ Hm) as (r & Hr & Hmatch).
        apply audio_duplicate_match_returns in Hmatch
          as (len & img & _ & _ & ->).
        exists (j - length vs)%nat, r. auto.
Qed.

Lemma normalise_base_score voc_match remove_voc phrase media_type :
  (normalise voc_match remove_voc phrase media_type).1.1 <= 75.
Proof.
  unfold normalise.
  destruct media_type, (voc_match phrase "youtube"); simpl; lia.
Qed.

(** Under a VIDEO request without fallback mode the running score is the
    base score, less five per place, plus the fuzzy match. *)
Lemma score_before_min_video voc_match fuzzy_match self phrase base_score
    explicit_request (m : Video.t) (idx : nat) :
  fallback_mode (settings self) = false ->
  score_before_min voc_match fuzzy_match self phrase
    CommonPlayMediaType.VIDEO base_score explicit_request m idx =
  (inject_Z (base_score - Z.of_nat idx * 5)
   + 100 * fuzzy_match (Py.lower phrase) (Py.lower (Video.title m)))%Q.
Proof.
  intros Hfb. unfold score_before_min. rewrite Hfb. simpl.
  destruct (Py.ge _ _); reflexivity.
Qed.

(** C7: no match has a confidence above 100, and there is no floor: for
    every bound some invocation returns a match with a confidence below
    it. *)
Theorem confidence_at_most_100_and_no_floor voc_match remove_voc fuzzy_match
    youtube_searcher :
  (forall self phrase media_type ms self' j m,
     search_youtube voc_match remove_voc fuzzy_match youtube_searcher
       self phrase media_type = (Ok ms, self') ->
     ms !! j = Some m ->
     (Match.match_confidence m <= 100)%Q)
  /\ (forall bound : Q,
        exists self phrase media_type ms self' j m,
          search_youtube voc_match remove_voc fuzzy_match youtube_searcher
            self phrase media_type = (Ok ms, self')
          /\ ms !! j = Some m
          /\ (Match.match_confidence m < bound)%Q).
Proof.
  split.
  - intros self phrase media_type ms self' j m Hrun Hm.
    apply search_youtube_cases in Hrun
      as [(_ & _ & [= ->] & _)|(results & _ & Hout)];
      [discriminate Hm|].
    symmetry in Hout. apply bind_Ok in Hout as (filtered & _ & Hbuild).
    destruct (build_matches_confidence _ _ _ _ _ _ _ _ _ _ _ Hbuild Hm)
      as (i & r & _ & [-> | ->]).
    + apply min_100_le_100.
    + pose proof (min_100_le_100
                    (score_before_min voc_match fuzzy_match self'
                       (searched_phrase voc_match remove_voc phrase media_type)
                       media_type
                       (normalise voc_match remove_voc phrase media_type).1.1
                       (normalise voc_match remove_voc phrase media_type).2
                       r i)) as Hle.
      unfold calc_score. lra.
  - intros bound.
    set (phrase := "").
    set (media_type := CommonPlayMediaType.VIDEO).
    set (phrase' := searched_phrase voc_match remove_voc phrase media_type).
    set (base := (normalise voc_match remove_voc phrase media_type).1.1).
    set (explicit := (normalise voc_match remove_voc phrase media_type).2).
    set (r := {| Video.title := ""; Video.url := ""; Video.length := None;
                 Video.thumbnails := [{| Thumbnail.url := "" |}] |}).
    set (v := fuzzy_match (Py.lower phrase') (Py.lower (Video.title r))).
    set (bz := Qfloor (bound - 100 * v)).
    set (n := Z.to_nat (Z.max 0 (76 - bz))).
    set (results := replicate (S n) r).
    set (self := {| settings := default_settings; gui_connected := true;
                    skill_icon := ""; skill_id := "";
                    search_cache := {[ phrase' := results ]} |}).
    assert (Hwf : Forall well_formed results).
    { apply Forall_replicate. split; reflexivity. }
    assert (Hfetch : fetched youtube_searcher self phrase' results self).
    { left. split; [apply lookup_singleton_eq|reflexivity]. }
    pose proof (search_youtube_fetched voc_match remove_voc fuzzy_match
                  youtube_searcher self phrase media_type results self Hfetch)
      as Hrun.
    fold phrase' base explicit in Hrun.
    change (filter_results voc_match media_type results) with (Ok results)
      in Hrun.
    simpl mbind in Hrun.
    destruct (build_matches_returns voc_match fuzzy_match self phrase'
                media_type base explicit results Hwf) as [ms Hms].
    rewrite Hms in Hrun.
    apply build_matches_video_only in Hms; [|reflexivity|reflexivity].
    apply comprehension_enumerate_lookup in Hms as (_ & _ & Hms).
    destruct (Hms n r) as (m & Hm & Hmatch).
    { apply lookup_replicate_2. lia. }
    apply video_match_returns in Hmatch as (len & img & _ & _ & Hmeq).
    exists self, phrase, media_type, ms, self, n, m.
    split; [exact Hrun|]. split; [exact Hm|].
    rewrite Hmeq. simpl. unfold calc_score.
    rewrite score_before_min_video by reflexivity. fold v.
    pose proof (min_100_le
                  (inject_Z (base - Z.of_nat n * 5) + 100 * v)%Q) as Hmin.
    pose proof (normalise_base_score voc_match remove_voc phrase media_type)
      as Hbase. fold base in Hbase.
    assert (H1 : (inject_Z (base - Z.of_nat n * 5) <= inject_Z (bz - 1))%Q).
    { rewrite <- Zle_Qle. unfold n. lia. }
    assert (H2 : (inject_Z (bz - 1) < inject_Z bz)%Q).
    { rewrite <- Zlt_Qlt. lia. }
    pose proof (Qfloor_le (bound - 100 * v)%Q) as H3. fold bz in H3.
    lra.
Qed.

(** The highest score [calc_score] lets through bounds every match. *)
Lemma confidence_at_most_100_and_no_floor_witness :
  (Match.match_confidence
     (Fixture.match_at 1
        (Fixture.search Fixture.both_forms "big buck bunny"
           CommonPlayMediaType.VIDEO)) <= 100)%Q.
Proof.
  exact (proj1 (confidence_at_most_100_and_no_floor Fixture.voc_match
                  Fixture.remove_voc Fixture.fuzzy_match
                  Fixture.youtube_searcher)
           (Fixture.skill Fixture.both_forms) "big buck bunny"
           CommonPlayMediaType.VIDEO
           (Fixture.matches_of (Fixture.search Fixture.both_forms
                                  "big buck bunny" CommonPlayMediaType.VIDEO))
           (Fixture.run Fixture.both_forms "big buck bunny"
              CommonPlayMediaType.VIDEO).2
           1%nat
           (Fixture.match_at 1 (Fixture.search Fixture.both_forms
                                  "big buck bunny" CommonPlayMediaType.VIDEO))
           eq_refl eq_refl).
Defined.

(** ** Fallback mode *)


Section Fallback.

Variable voc_match : string -> string -> bool.
Variable remove_voc : string -> string -> string.
Variable fuzzy_match : string -> string -> Q.
Variable youtube_searcher : string -> option (list Video.t).

Variable self : SimpleYoutubeSkill.
Variable phrase : string.
Variable media_type : CommonPlayMediaType.t.
Variable base_score : Z.

Hypothesis fallback_off : fallback_mode (settings self) = false.







End Fallback.

Lemma normalise_not_explicit voc_match remove_voc phrase media_type :
  voc_match phrase "youtube" = false ->
  (normalise voc_match remove_voc phrase media_type).2 = false.
Proof. intros H. unfold normalise. rewrite H. reflexivity. Qed.




(** * Further properties of the code *)

(** ** The fields of a duration *)

Lemma split_length (sep : ascii) (s : string) :
  length (Py.split sep s) = S (count_char sep s).
Proof.
  induction s as [|c s IH]; simpl; [reflexivity|].
  destruct (Ascii.eqb c sep); simpl.
  - rewrite IH. reflexivity.
  - destruct (Py.split sep s) as [|f fs] eqn:E; simpl in *; lia.
Qed.

Lemma split_one_field (sep : ascii) (a : string) :
  count_char sep a = 0%nat -> Py.split sep a = [a].
Proof.
  induction a as [|c a IH]; simpl; [reflexivity|].
  destruct (Ascii.eqb c sep); simpl; [discriminate|].
  intros H. rewrite (IH H). reflexivity.
Qed.

Lemma split_first_field (sep : ascii) (a rest : string) :
  count_char sep a = 0%nat ->
  Py.split sep (a ++ String sep rest) = a :: Py.split sep rest.
Proof.
  induction a as [|c a IH]; simpl.
  - intros _. rewrite Ascii.eqb_refl. reflexivity.
  - destruct (Ascii.eqb c sep); simpl; [discriminate|].
    intros H. rewrite (IH H). reflexivity.
Qed.

(** A string is its first field, followed by nothing or by the separator
    and the string of the other fields. *)
Lemma split_decompose (sep : ascii) (s : string) :
  exists first others,
    Py.split sep s = first :: others
    /\ count_char sep first = 0%nat
    /\ ((others = [] /\ s = first)
        \/ exists rest,
             s = first ++ String sep rest /\ Py.split sep rest = others).
Proof.
  induction s as [|c s (first & others & Hs & Hfirst & Hrest)]; simpl.
  - exists "", []. auto.
  - destruct (Ascii.eqb c sep) eqn:E.
    + apply Ascii.eqb_eq in E. subst c.
      exists "", (Py.split sep s). repeat split. right. exists s. auto.
    + rewrite Hs. exists (String c first), others.
      split; [reflexivity|]. split; [simpl; rewrite E; exact Hfirst|].
      destruct Hrest as [[-> ->]|(rest & -> & Hothers)].
      * left. auto.
      * right. exists rest. auto.
Qed.

Lemma int_raises_ValueError (s : string) (e : exception) :
  Py.int s = Raise e -> e = ValueError.
Proof.
  unfold Py.int.
  destruct (match Py.lstrip s with
            | String "+"%char s' => Py.scan_digits Py.Nothing 0 s'
            | String "-"%char s' => Z.opp <$> Py.scan_digits Py.Nothing 0 s'
            | s' => Py.scan_digits Py.Nothing 0 s'
            end); congruence.
Qed.

(** The duration of a text of two fields, and of three: the first field
    decides, what follows the first colon is not looked at. *)
Lemma parse_duration_two_fields (video : Video.t) (a b : string) :
  count_char ":" a = 0%nat -> count_char ":" b = 0%nat ->
  parse_duration (with_length video (a ++ ":" ++ b))
  = (n ← Py.int a; Ok (n * 61000)).
Proof.
  intros Ha Hb.
  assert (Hsplit : Py.split ":" (a ++ ":" ++ b) = [a; b]).
  { change (a ++ ":" ++ b) with (a ++ String ":" b).
    rewrite (split_first_field _ _ _ Ha), (split_one_field _ _ Hb).
    reflexivity. }
  destruct (a ++ ":" ++ b) as [|c s] eqn:E.
  { destruct a; discriminate E. }
  rewrite parse_duration_with_length, Hsplit.
  destruct (Py.int a) as [n|e]; simpl; [f_equal; lia|reflexivity].
Qed.

Lemma parse_duration_three_fields (video : Video.t) (a b c : string) :
  count_char ":" a = 0%nat -> count_char ":" b = 0%nat ->
  count_char ":" c = 0%nat ->
  parse_duration (with_length video (a ++ ":" ++ b ++ ":" ++ c))
  = (n ← Py.int a; Ok (n * 3661000)).
Proof.
  intros Ha Hb Hc.
  assert (Hsplit : Py.split ":" (a ++ ":" ++ b ++ ":" ++ c) = [a; b; c]).
  { change (a ++ ":" ++ b ++ ":" ++ c)
      with (a ++ String ":" (b ++ String ":" c)).
    rewrite (split_first_field _ _ _ Ha), (split_first_field _ _ _ Hb),
      (split_one_field _ _ Hc).
    reflexivity. }
  destruct (a ++ ":" ++ b ++ ":" ++ c) as [|c0 s] eqn:E.
  { destruct a; discriminate E. }
  rewrite parse_duration_with_length, Hsplit.
  destruct (Py.int a) as [n|e]; simpl; [f_equal; lia|reflexivity].
Qed.

Lemma parse_duration_length_only (r r' : Video.t) :
  Video.length r = Video.length r' -> parse_duration r = parse_duration r'.
Proof. unfold parse_duration. intros ->. reflexivity. Qed.

(** With two or three fields the duration is 61000 or 3661000 times the
    number [int] reads in the first field, sign, white space and
    underscores included, and ValueError when it reads none; the fields
    after the first colon are never converted, whatever they hold. *)
Theorem parse_duration_reads_first_field_only (video : Video.t)
    (a b c : string) :
  count_char ":" a = 0%nat -> count_char ":" b = 0%nat ->
  count_char ":" c = 0%nat ->
  parse_duration (with_length video (a ++ ":" ++ b))
  = (n ← Py.int a; Ok (n * 61000))
  /\ parse_duration (with_length video (a ++ ":" ++ b ++ ":" ++ c))
     = (n ← Py.int a; Ok (n * 3661000)).
Proof.
  intros Ha Hb Hc. split.
  - apply parse_duration_two_fields; assumption.
  - apply parse_duration_three_fields; assumption.
Qed.

Lemma parse_duration_reads_first_field_only_witness :
  parse_duration (Fixture.video "clip" (Some " +1_0 :xx") []) = Ok 610000
  /\ parse_duration (Fixture.video "clip" (Some " +1_0 :xx:") [])
     = Ok 36610000.
Proof.
  exact (parse_duration_reads_first_field_only
           (Fixture.video "clip" None []) " +1_0 " "xx" ""
           eq_refl eq_refl eq_refl).
Defined.

Lemma parse_duration_one_field (video : Video.t) (text : string) :
  count_char ":" text = 0%nat ->
  parse_duration (with_length video text)
  = (if Py.isdigit text then n ← Py.int text; Ok (n * 1000) else Ok 0).
Proof.
  intros H. destruct text as [|c s]; [reflexivity|].
  rewrite parse_duration_with_length, (split_one_field _ _ H).
  destruct (Py.isdigit (String c s)); reflexivity.
Qed.

Lemma parse_duration_many_fields (video : Video.t) (text : string) :
  (3 <= count_char ":" text)%nat ->
  parse_duration (with_length video text) = Ok 0.
Proof.
  intros H. destruct text as [|c s]; [simpl in H; lia|].
  rewrite parse_duration_with_length.
  pose proof (split_length ":" (String c s)) as Hlen.
  destruct (Py.split ":" (String c s)) as [|f1 [|f2 [|f3 [|f4 fs]]]];
    cbn [length] in Hlen; try lia.
  reflexivity.
Qed.

(** Without a colon the duration is [int] of the text, in milliseconds,
    when the text passes [isdigit], and 0 when it does not, a signed
    number included; on ASCII text that is the number the digits denote
    or 0, and nothing is raised.  With three colons or more it is 0. *)
Theorem parse_duration_one_or_many_fields (video : Video.t) (text : string) :
  (count_char ":" text = 0%nat ->
   parse_duration (with_length video text)
   = (if Py.isdigit text then n ← Py.int text; Ok (n * 1000) else Ok 0))
  /\ (is_ascii text = true ->
      count_char ":" text = 0%nat ->
      parse_duration (with_length video text)
      = Ok (if Py.isdigit text then decimal text * 1000 else 0))
  /\ ((3 <= count_char ":" text)%nat ->
      parse_duration (with_length video text) = Ok 0).
Proof.
  split; [apply parse_duration_one_field|]. split.
  - intros _ H. rewrite (parse_duration_one_field _ _ H).
    destruct (Py.isdigit text) eqn:E; [|reflexivity].
    rewrite (int_of_digits _ E). reflexivity.
  - apply parse_duration_many_fields.
Qed.

Lemma parse_duration_one_or_many_fields_witness :
  parse_duration (Fixture.video "clip" (Some "+45") []) = Ok 0
  /\ parse_duration (Fixture.video "clip" (Some "45") []) = Ok 45000
  /\ parse_duration (Fixture.video "clip" (Some "1:02:03:04") []) = Ok 0.
Proof.
  split; [|split].
  - exact (proj1 (parse_duration_one_or_many_fields
                    (Fixture.video "clip" None []) "+45") eq_refl).
  - exact (proj1 (proj2 (parse_duration_one_or_many_fields
                           (Fixture.video "clip" None []) "45"))
             eq_refl eq_refl).
  - apply (proj2 (proj2 (parse_duration_one_or_many_fields
                           (Fixture.video "clip" None []) "1:02:03:04"))).
    simpl. lia.
Defined.

Lemma parse_duration_raises (r : Video.t) (e : exception) :
  parse_duration r = Raise e <->
  e = ValueError
  /\ exists first,
       Py.int first = Raise ValueError
       /\ ((Video.length r = Some first
            /\ count_char ":" first = 0%nat
            /\ Py.isdigit first = true)
           \/ exists rest,
                Video.length r = Some (first ++ ":" ++ rest)
                /\ count_char ":" first = 0%nat
                /\ (count_char ":" rest <= 1)%nat).
Proof.
  split.
  - intros H.
    destruct (Video.length r) as [text|] eqn:Hlen;
      [|unfold parse_duration in H; rewrite Hlen in H; discriminate H].
    rewrite (parse_duration_length_only r (with_length r text)) in H
      by (rewrite Hlen; reflexivity).
    destruct (split_decompose ":" text)
      as (first & others & Hsplit & Hfirst & [[-> ->]|(rest & -> & Hrest)]).
    { rewrite (parse_duration_one_field r first Hfirst) in H.
      destruct (Py.isdigit first) eqn:Hdigit; [|discriminate H].
      destruct (Py.int first) as [n|e'] eqn:Hint; [discriminate H|].
      injection H as <-.
      pose proof (int_raises_ValueError _ _ Hint) as ->.
      split; [reflexivity|]. exists first. split; [exact Hint|].
      left. auto. }
    pose proof (split_length ":" rest) as Hcount. rewrite Hrest in Hcount.
    destruct others as [|b [|c [|d others]]]; simpl in Hcount.
    + lia.
    + assert (Hb : count_char ":" rest = 0%nat) by lia.
      change (first ++ String ":" rest) with (first ++ ":" ++ rest) in H.
      rewrite (parse_duration_two_fields r _ _ Hfirst Hb) in H.
      destruct (Py.int first) as [n|e'] eqn:Hint; [discriminate H|].
      injection H as <-.
      pose proof (int_raises_ValueError _ _ Hint) as ->.
      split; [reflexivity|]. exists first. split; [exact Hint|].
      right. exists rest. repeat split; auto. lia.
    + destruct (split_decompose ":" rest)
        as (b' & others' & Hsplit' & Hb' & [[-> ->]|(rest' & -> & Hrest')]).
      { rewrite Hrest in Hsplit'. discriminate Hsplit'. }
      rewrite Hrest in Hsplit'. injection Hsplit' as <- <-.
      assert (Hc : count_char ":" rest' = 0%nat).
      { pose proof (split_length ":" rest') as Hc. rewrite Hrest' in Hc.
        simpl in Hc. lia. }
      change (first ++ String ":" (b ++ String ":" rest'))
        with (first ++ ":" ++ b ++ ":" ++ rest') in H.
      rewrite (parse_duration_three_fields r _ _ _ Hfirst Hb' Hc) in H.
      destruct (Py.int first) as [n|e'] eqn:Hint; [discriminate H|].
      injection H as <-.
      pose proof (int_raises_ValueError _ _ Hint) as ->.
      split; [reflexivity|]. exists first. split; [exact Hint|].
      right. exists (b ++ String ":" rest'). repeat split; auto. lia.
    + assert (H3 : (3 <= count_char ":" (first ++ String ":" rest))%nat).
      { pose proof (split_length ":" (first ++ String ":" rest)) as Hl.
        rewrite (split_first_field _ _ _ Hfirst), Hrest in Hl.
        simpl in Hl. lia. }
      rewrite (parse_duration_many_fields r _ H3) in H.
      discriminate H.
  - intros (-> & first & Hint
            & [(Hlen & Hfirst & Hdigit)|(rest & Hlen & Hfirst & Hrest)]).
    { rewrite (parse_duration_length_only r (with_length r first))
        by (rewrite Hlen; reflexivity).
      rewrite (parse_duration_one_field r first Hfirst), Hdigit, Hint.
      reflexivity. }
    rewrite (parse_duration_length_only r
               (with_length r (first ++ ":" ++ rest)))
      by (rewrite Hlen; reflexivity).
    destruct (split_decompose ":" rest)
      as (b & others & Hsplit & Hb & [[-> ->]|(rest' & -> & Hrest')]).
    + rewrite (parse_duration_two_fields r _ _ Hfirst Hb), Hint. reflexivity.
    + assert (Hc : count_char ":" rest' = 0%nat).
      { pose proof (split_length ":" (b ++ String ":" rest')) as Hl.
        rewrite (split_first_field _ _ _ Hb) in Hl. simpl in Hl.
        pose proof (split_length ":" rest') as Hl'. lia. }
      change (first ++ ":" ++ b ++ String ":" rest')
        with (first ++ ":" ++ b ++ ":" ++ rest').
      rewrite (parse_duration_three_fields r _ _ _ Hfirst Hb Hc), Hint.
      reflexivity.
Qed.

(** The parser raises exactly when it converts the first field and [int]
    rejects it: the text has one or two colons, or it has none and passes
    [isdigit]; what it raises is ValueError.  On ASCII text [int] accepts
    whatever passes [isdigit], so that there the parser raises exactly
    when the text has one or two colons and [int] rejects what stands
    before the first. *)
Theorem parse_duration_raises_iff (r : Video.t) (e : exception) :
  (parse_duration r = Raise e <->
   e = ValueError
   /\ exists first,
        Py.int first = Raise ValueError
        /\ ((Video.length r = Some first
             /\ count_char ":" first = 0%nat
             /\ Py.isdigit first = true)
            \/ exists rest,
                 Video.length r = Some (first ++ ":" ++ rest)
                 /\ count_char ":" first = 0%nat
                 /\ (count_char ":" rest <= 1)%nat))
  /\ ((forall text, Video.length r = Some text -> is_ascii text = true) ->
      (parse_duration r = Raise e <->
       e = ValueError
       /\ exists first rest,
            Video.length r = Some (first ++ ":" ++ rest)
            /\ count_char ":" first = 0%nat
            /\ (count_char ":" rest <= 1)%nat
            /\ Py.int first = Raise ValueError)).
Proof.
  split; [apply parse_duration_raises|].
  intros _. rewrite parse_duration_raises. split.
  - intros (-> & first & Hint
            & [(_ & _ & Hdigit)|(rest & Hlen & Hfirst & Hrest)]).
    + rewrite (int_of_digits _ Hdigit) in Hint. discriminate Hint.
    + split; [reflexivity|]. exists first, rest. auto.
  - intros (-> & first & rest & Hlen & Hfirst & Hrest & Hint).
    split; [reflexivity|]. exists first. split; [exact Hint|].
    right. exists rest. auto.
Qed.

(** "a:30" is ASCII and raises; it has one colon, and [int] rejects "a". *)
Lemma parse_duration_raises_iff_witness :
  parse_duration (Fixture.video "clip" (Some "a:30") []) = Raise ValueError
  <-> ValueError = ValueError
      /\ exists first rest,
           Some "a:30" = Some (first ++ ":" ++ rest)
           /\ count_char ":" first = 0%nat
           /\ (count_char ":" rest <= 1)%nat
           /\ Py.int first = Raise ValueError.
Proof.
  apply (proj2 (parse_duration_raises_iff
                  (Fixture.video "clip" (Some "a:30") []) ValueError)).
  intros text [= <-]. reflexivity.
Defined.

(** ** The duration filters *)

Lemma truediv_lt (ms bound : Z) :
  Py.lt (inject_Z ms / inject_Z 1000) (inject_Z bound)
  = (ms <? bound * 1000).
Proof.
  destruct (ms <? bound * 1000) eqn:E.
  - apply lt_true. apply Z.ltb_lt in E.
    unfold Qlt, Qdiv, Qmult, Qinv, inject_Z. simpl. lia.
  - apply lt_false. apply Z.ltb_ge in E.
    unfold Qle, Qdiv, Qmult, Qinv, inject_Z. simpl. lia.
Qed.

(** The two filters in whole milliseconds: the division by 1000 and the
    comparison of floats come to a comparison of integers. *)
Lemma is_podcast_in_ms voc_match (r : Video.t) :
  is_podcast voc_match r =
  (ms ← parse_duration r;
   if Py.float_overflow * 1000 <=? Z.abs ms then Raise OverflowError
   else Ok (if ms <? 1800000 then false
            else voc_match (Video.title r) "podcast")).
Proof.
  unfold is_podcast. destruct (parse_duration r) as [ms|e]; [|reflexivity].
  simpl. unfold Py.truediv.
  destruct (Py.float_overflow * 1000 <=? Z.abs ms); [reflexivity|].
  simpl. rewrite (truediv_lt ms (30 * 60)).
  change (30 * 60 * 1000) with 1800000.
  destruct (ms <? 1800000); reflexivity.
Qed.

Lemma is_documentary_in_ms voc_match (r : Video.t) :
  is_documentary voc_match r =
  (ms ← parse_duration r;
   if Py.float_overflow * 1000 <=? Z.abs ms then Raise OverflowError
   else Ok (if ms <? 1200000 then false
            else voc_match (Video.title r) "documentary")).
Proof.
  unfold is_documentary.
  destruct (parse_duration r) as [ms|e]; [|reflexivity].
  simpl. unfold Py.truediv.
  destruct (Py.float_overflow * 1000 <=? Z.abs ms); [reflexivity|].
  simpl. rewrite (truediv_lt ms (20 * 60)).
  change (20 * 60 * 1000) with 1200000.
  destruct (ms <? 1200000); reflexivity.
Qed.

Lemma float_overflow_positive : 0 < Py.float_overflow.
Proof. reflexivity. Qed.

Lemma duration_test_true (ms threshold : Z) (voc : bool) :
  0 <= threshold ->
  (if Py.float_overflow * 1000 <=? Z.abs ms then Raise OverflowError
   else Ok (if ms <? threshold then false else voc)) = Ok true
  <-> threshold <= ms < Py.float_overflow * 1000 /\ voc = true.
Proof.
  intros Hth.
  destruct (Py.float_overflow * 1000 <=? Z.abs ms) eqn:E1.
  - apply Z.leb_le in E1. split; [discriminate|]. intros [H _]. lia.
  - apply Z.leb_gt in E1. destruct (ms <? threshold) eqn:E2.
    + apply Z.ltb_lt in E2. split; [discriminate|]. intros [H _]. lia.
    + apply Z.ltb_ge in E2. split.
      * intros [= ->]. split; [lia|reflexivity].
      * intros [_ ->]. reflexivity.
Qed.

(** A result passes the podcast test exactly when its parsed duration is
    at least 1800000 ms, thirty minutes to the millisecond included, and
    within the range of a float, and its title is in the podcast
    vocabulary; the documentary test is the same with 1200000 ms and the
    documentary vocabulary. *)
Theorem duration_filters_in_milliseconds voc_match (r : Video.t) :
  (is_podcast voc_match r = Ok true <->
   exists ms,
     parse_duration r = Ok ms
     /\ 1800000 <= ms < Py.float_overflow * 1000
     /\ voc_match (Video.title r) "podcast" = true)
  /\ (is_documentary voc_match r = Ok true <->
      exists ms,
        parse_duration r = Ok ms
        /\ 1200000 <= ms < Py.float_overflow * 1000
        /\ voc_match (Video.title r) "documentary" = true).
Proof.
  split.
  - rewrite is_podcast_in_ms. split.
    + intros (ms & Hms & H)%bind_Ok.
      apply duration_test_true in H as [Hrange Hvoc]; [|lia]. eauto.
    + intros (ms & -> & Hrange & Hvoc). simpl.
      apply duration_test_true; [lia|auto].
  - rewrite is_documentary_in_ms. split.
    + intros (ms & Hms & H)%bind_Ok.
      apply duration_test_true in H as [Hrange Hvoc]; [|lia]. eauto.
    + intros (ms & -> & Hrange & Hvoc). simpl.
      apply duration_test_true; [lia|auto].
Qed.

Lemma digit_value_bounds (c : ascii) :
  Py.is_ascii_digit c = true -> 0 <= Py.digit_value c <= 9.
Proof.
  unfold Py.is_ascii_digit, Py.digit_value.
  intros [H1 H2]%andb_prop. apply N.leb_le in H1. apply N.leb_le in H2. lia.
Qed.

Lemma decimal_from_nonneg (acc : Z) (s : string) :
  0 <= acc -> Py.all_chars Py.is_ascii_digit s = true ->
  0 <= decimal_from acc s.
Proof.
  revert acc. induction s as [|c s IH]; intros acc Hacc; simpl; [auto|].
  intros [Hc Hs]%andb_prop. apply IH; [|exact Hs].
  pose proof (digit_value_bounds c Hc). lia.
Qed.

Lemma decimal_nonneg (s : string) : Py.isdigit s = true -> 0 <= decimal s.
Proof.
  intros H. apply decimal_from_nonneg; [lia|apply isdigit_all_chars, H].
Qed.

Lemma digits_without (sep : ascii) (s : string) :
  Py.is_ascii_digit sep = false ->
  Py.all_chars Py.is_ascii_digit s = true ->
  count_char sep s = 0%nat.
Proof.
  intros Hsep. induction s as [|c s IH]; simpl; [reflexivity|].
  intros [Hc Hs]%andb_prop.
  rewrite (digit_is_not c sep Hc Hsep), (IH Hs). reflexivity.
Qed.

(** Because every term of the duration is the first field, the length
    tests read the first field alone.  On "M:S" a podcast needs M >= 30
    and a documentary M >= 20; on "H:M:S" either needs H >= 1, so that a
    result of "0:45:00" passes neither test and one of "1:00:00" passes
    both. *)
Theorem duration_filters_read_first_field voc_match (video : Video.t)
    (a b c : string) :
  Py.isdigit a = true -> Py.isdigit b = true -> Py.isdigit c = true ->
  decimal a * 3661 < Py.float_overflow ->
  is_podcast voc_match (with_length video (a ++ ":" ++ b))
  = Ok ((30 <=? decimal a) && voc_match (Video.title video) "podcast")
  /\ is_podcast voc_match (with_length video (a ++ ":" ++ b ++ ":" ++ c))
     = Ok ((1 <=? decimal a) && voc_match (Video.title video) "podcast")
  /\ is_documentary voc_match (with_length video (a ++ ":" ++ b))
     = Ok ((20 <=? decimal a)
           && voc_match (Video.title video) "documentary")
  /\ is_documentary voc_match
       (with_length video (a ++ ":" ++ b ++ ":" ++ c))
     = Ok ((1 <=? decimal a)
           && voc_match (Video.title video) "documentary").
Proof.
  intros Ha Hb Hc Hrange.
  assert (Hsep : Py.is_ascii_digit ":" = false) by reflexivity.
  pose proof (digits_without ":" a Hsep (isdigit_all_chars _ Ha)) as Ha0.
  pose proof (digits_without ":" b Hsep (isdigit_all_chars _ Hb)) as Hb0.
  pose proof (digits_without ":" c Hsep (isdigit_all_chars _ Hc)) as Hc0.
  pose proof (decimal_nonneg a Ha) as Hpos.
  assert (H2 : (Py.float_overflow * 1000 <=? Z.abs (decimal a * 61000))
               = false) by (apply Z.leb_gt; lia).
  assert (H3 : (Py.float_overflow * 1000 <=? Z.abs (decimal a * 3661000))
               = false) by (apply Z.leb_gt; lia).
  repeat split.
  - rewrite is_podcast_in_ms, (parse_duration_two_fields _ _ _ Ha0 Hb0),
      (int_of_digits _ Ha). simpl. rewrite H2. f_equal.
    destruct (decimal a * 61000 <? 1800000) eqn:E1;
      destruct (30 <=? decimal a) eqn:E2; try reflexivity;
      [apply Z.ltb_lt in E1; apply Z.leb_le in E2
      |apply Z.ltb_ge in E1; apply Z.leb_gt in E2]; lia.
  - rewrite is_podcast_in_ms,
      (parse_duration_three_fields _ _ _ _ Ha0 Hb0 Hc0),
      (int_of_digits _ Ha). simpl. rewrite H3. f_equal.
    destruct (decimal a * 3661000 <? 1800000) eqn:E1;
      destruct (1 <=? decimal a) eqn:E2; try reflexivity;
      [apply Z.ltb_lt in E1; apply Z.leb_le in E2
      |apply Z.ltb_ge in E1; apply Z.leb_gt in E2]; lia.
  - rewrite is_documentary_in_ms, (parse_duration_two_fields _ _ _ Ha0 Hb0),
      (int_of_digits _ Ha). simpl. rewrite H2. f_equal.
    destruct (decimal a * 61000 <? 1200000) eqn:E1;
      destruct (20 <=? decimal a) eqn:E2; try reflexivity;
      [apply Z.ltb_lt in E1; apply Z.leb_le in E2
      |apply Z.ltb_ge in E1; apply Z.leb_gt in E2]; lia.
  - rewrite is_documentary_in_ms,
      (parse_duration_three_fields _ _ _ _ Ha0 Hb0 Hc0),
      (int_of_digits _ Ha). simpl. rewrite H3. f_equal.
    destruct (decimal a * 3661000 <? 1200000) eqn:E1;
      destruct (1 <=? decimal a) eqn:E2; try reflexivity;
      [apply Z.ltb_lt in E1; apply Z.leb_le in E2
      |apply Z.ltb_ge in E1; apply Z.leb_gt in E2]; lia.
Qed.

(** "45:00" and "0:45:00" both stand for forty-five minutes: the first is
    a podcast, the second is not. *)
Lemma duration_filters_read_first_field_witness :
  is_podcast Fixture.voc_match
    (Fixture.video "A podcast" (Some "45:00") []) = Ok true
  /\ is_podcast Fixture.voc_match
       (Fixture.video "A podcast" (Some "0:45:00") []) = Ok false.
Proof.
  split.
  - exact (proj1 (duration_filters_read_first_field Fixture.voc_match
                    (Fixture.video "A podcast" None []) "45" "00" "00"
                    eq_refl eq_refl eq_refl eq_refl)).
  - exact (proj1 (proj2 (duration_filters_read_first_field Fixture.voc_match
                           (Fixture.video "A podcast" None []) "0" "45" "00"
                           eq_refl eq_refl eq_refl eq_refl))).
Defined.

(** ** The category filters *)

Lemma comprehension_if_filter {A : Type} (p : A -> result bool)
    (xs ys : list A) :
  comprehension_if p xs = Ok ys ->
  ys = filter
         (fun x => match p x with Ok b => b | Raise _ => false end = true) xs.
Proof.
  revert ys. induction xs as [|x xs IH]; intros ys H; simpl in H.
  - injection H as <-. reflexivity.
  - returned H. rewrite filter_cons, Ha. subst ys.
    rewrite <- (IH _ Ha0).
    destruct a; [rewrite decide_True by reflexivity
                |rewrite decide_False by discriminate]; reflexivity.
Qed.

Lemma comprehension_if_returns_iff {A : Type} (p : A -> result bool)
    (xs : list A) :
  (exists ys, comprehension_if p xs = Ok ys)
  <-> Forall (fun x => exists b, p x = Ok b) xs.
Proof.
  split.
  - induction xs as [|x xs IH]; intros [ys H]; [constructor|].
    simpl in H. returned H. constructor; eauto.
  - intros H.
    destruct (comprehension_if_returns p (fun _ => True) xs H)
      as (ys & Hys & _); [apply Forall_true; auto|eauto].
Qed.

Lemma filter_all {A : Type} (xs : list A) :
  filter (fun _ : A => true = true) xs = xs.
Proof.
  induction xs as [|x xs IH]; [reflexivity|].
  rewrite filter_cons, decide_True by reflexivity. rewrite IH. reflexivity.
Qed.

Lemma filter_results_filter voc_match media_type
    (results filtered : list Video.t) :
  filter_results voc_match media_type results = Ok filtered ->
  filtered = filter (fun r => keeps voc_match media_type r = true) results
  /\ sublist filtered results.
Proof.
  intros H.
  assert (Heq : filtered
                = filter (fun r => keeps voc_match media_type r = true)
                    results).
  { unfold filter_results in H. destruct media_type; simpl in H.
    - injection H as <-. symmetry. apply filter_all.
    - injection H as <-. reflexivity.
    - returned H. subst filtered. apply comprehension_if_filter, Ha.
    - apply comprehension_if_filter, H.
    - injection H as <-. symmetry. apply filter_all.
    - injection H as <-. symmetry. apply filter_all. }
  split; [exact Heq|]. rewrite Heq. apply sublist_filter.
Qed.

(** What the filters return is the results that pass the test of the
    requested category, in the provider's order and none twice; GENERIC,
    VIDEO and AUDIO requests keep every result. *)
Theorem filter_results_keeps voc_match media_type
    (results filtered : list Video.t) :
  filter_results voc_match media_type results = Ok filtered ->
  filtered = filter (fun r => keeps voc_match media_type r = true) results
  /\ sublist filtered results.
Proof. apply filter_results_filter. Qed.

Lemma filter_results_keeps_witness :
  [Fixture.video "Rock Music" (Some "3:49") Fixture.thumbs]
  = filter (fun r => keeps Fixture.voc_match CommonPlayMediaType.MUSIC r
                     = true) Fixture.rock_music_videos.
Proof.
  exact (proj1 (filter_results_keeps Fixture.voc_match
                  CommonPlayMediaType.MUSIC Fixture.rock_music_videos
                  [Fixture.video "Rock Music" (Some "3:49") Fixture.thumbs]
                  eq_refl)).
Defined.

(** The filters return exactly when the test of the requested category
    runs through on every result: under a PODCAST or DOCUMENTARY request
    one result whose duration the parser rejects, or whose duration is
    beyond the range of a float, makes the whole invocation raise, also
    when its title would have excluded it.  The other categories never
    raise here. *)
Theorem filter_results_returns_iff voc_match media_type
    (results : list Video.t) :
  (exists filtered, filter_results voc_match media_type results = Ok filtered)
  <-> Forall (filter_accepts voc_match media_type) results.
Proof.
  unfold filter_results, filter_accepts. destruct media_type; simpl.
  - split; [intros _; apply Forall_true; auto|eauto].
  - split; [intros _; apply Forall_true; auto|eauto].
  - rewrite <- comprehension_if_returns_iff. split.
    + intros [ys H]. returned H. eauto.
    + intros [ys ->]. simpl. eauto.
  - apply comprehension_if_returns_iff.
  - split; [intros _; apply Forall_true; auto|eauto].
  - split; [intros _; apply Forall_true; auto|eauto].
Qed.

(** ** Where a match comes from *)

Section Provenance.

Variable voc_match : string -> string -> bool.
Variable fuzzy_match : string -> string -> Q.
Variable self : SimpleYoutubeSkill.
Variable phrase : string.
Variable media_type : CommonPlayMediaType.t.
Variable base_score : Z.
Variable explicit_request : bool.

(** The match at position [j] is built from the result at position [j],
    counted again from the start for the audio duplicates, by the
    comprehension the settings select. *)
Lemma build_matches_entry (results : list Video.t) ms j m :
  build_matches voc_match fuzzy_match self phrase media_type base_score
    explicit_request results = Ok ms ->
  ms !! j = Some m ->
  (audio_only (settings self) = true
   /\ exists r,
        results !! j = Some r
        /\ audio_only_match voc_match fuzzy_match self phrase media_type
             base_score explicit_request (j, r) = Ok m)
  \/ (audio_only (settings self) = false
      /\ exists r,
           results !! j = Some r
           /\ video_match voc_match fuzzy_match self phrase media_type
                base_score explicit_request (j, r) = Ok m)
  \/ (audio_only (settings self) = false
      /\ video_only (settings self) = false
      /\ (length results <= j)%nat
      /\ exists r,
           results !! (j - length results)%nat = Some r
           /\ audio_duplicate_match voc_match fuzzy_match self phrase
                media_type base_score explicit_request
                ((j - length results)%nat, r) = Ok m).
Proof.
  intros Hbuild Hm.
  destruct (audio_only (settings self)) eqn:Ha.
  - apply build_matches_audio_only in Hbuild; [|exact Ha].
    apply comprehension_enumerate_lookup in Hbuild as (Hlen & Hms & _).
    left. split; [reflexivity|]. apply Hms, Hm.
  - right. destruct (video_only (settings self)) eqn:Hv.
    + apply build_matches_video_only in Hbuild; [|exact Ha|exact Hv].
      apply comprehension_enumerate_lookup in Hbuild as (Hlen & Hms & _).
      left. split; [reflexivity|]. apply Hms, Hm.
    + apply build_matches_both in Hbuild as (vs & ds & Hvs & Hds & ->);
        [|exact Ha|exact Hv].
      apply comprehension_enumerate_lookup in Hvs as (Hlv & Hvs & _).
      apply comprehension_enumerate_lookup in Hds as (Hld & Hds & _).
      apply lookup_app_Some in Hm as [Hm|[Hge Hm]].
      * left. split; [reflexivity|]. apply Hvs, Hm.
      * right. rewrite Hlv in *. repeat split; [exact Hge|].
        apply Hds, Hm.
Qed.

Lemma mod_second_half (j n : nat) :
  (n <= j)%nat -> (j - n < n)%nat -> (j mod n = j - n)%nat.
Proof.
  intros Hge Hlt.
  replace j with (j - n + 1 * n)%nat at 1 by lia.
  rewrite Nat.Div0.mod_add. apply Nat.mod_small. exact Hlt.
Qed.

End Provenance.

(** Matches follow the provider's order: the match at position [j] is
    made from the filtered result at position [j], or [j] less the number
    of results for an audio duplicate.  It carries that result's url, its
    parsed duration, its last thumbnail without the query string, its
    title, with or without the audio-only marker, and the score computed
    for that position, less one for an audio duplicate. *)
Theorem build_matches_follows_results voc_match fuzzy_match self phrase
    media_type base_score explicit_request (results : list Video.t)
    (ms : list Match.t) (j : nat) (m : Match.t) :
  build_matches voc_match fuzzy_match self phrase media_type base_score
    explicit_request results = Ok ms ->
  ms !! j = Some m ->
  exists r,
    results !! (j mod length results)%nat = Some r
    /\ Match.uri m = Video.url r
    /\ parse_duration r = Ok (Match.length m)
    /\ thumbnail r = Ok (Match.image m)
    /\ Match.match_confidence m
       = (if decide (j < length results)%nat
          then calc_score voc_match fuzzy_match self phrase media_type
                 base_score explicit_request r j
          else calc_score voc_match fuzzy_match self phrase media_type
                 base_score explicit_request r (j - length results) - 1)%Q
    /\ Match.title m
       = (if decide (Match.playback m = CommonPlayPlaybackType.AUDIO)
          then Video.title r ++ " (audio only)" else Video.title r).
Proof.
  intros Hbuild Hm.
  destruct (build_matches_entry _ _ _ _ _ _ _ _ _ _ _ Hbuild Hm)
    as [(Ha & r & Hr & Hmatch)
       |[(Ha & r & Hr & Hmatch)|(Ha & Hv & Hge & r & Hr & Hmatch)]];
    apply lookup_lt_Some in Hr as Hlt.
  - apply audio_only_match_returns in Hmatch as (len & img & Hlen & Himg & ->).
    rewrite Nat.mod_small by exact Hlt. exists r. simpl.
    rewrite decide_True by exact Hlt. auto 10.
  - apply video_match_returns in Hmatch as (len & img & Hlen & Himg & ->).
    rewrite Nat.mod_small by exact Hlt. exists r. simpl.
    rewrite decide_True by exact Hlt. auto 10.
  - apply audio_duplicate_match_returns in Hmatch
      as (len & img & Hlen & Himg & ->).
    rewrite (mod_second_half _ _ Hge Hlt). exists r. simpl.
    rewrite decide_False by lia. auto 10.
Qed.

(** The audio duplicate of the second result for "rock music" stands at
    position 5 and is made from the result at position 1. *)
Lemma build_matches_follows_results_witness :
  let build :=
    build_matches Fixture.voc_match Fixture.fuzzy_match
      (Fixture.skill Fixture.both_forms) "rock music"
      CommonPlayMediaType.GENERIC 0 false Fixture.rock_music_videos in
  let m := Fixture.match_at 5 build in
  exists r,
    Fixture.rock_music_videos !! (5 mod 4)%nat = Some r
    /\ Match.uri m = Video.url r
    /\ parse_duration r = Ok (Match.length m)
    /\ thumbnail r = Ok (Match.image m)
    /\ Match.match_confidence m
       = (if decide (5 < 4)%nat
          then calc_score Fixture.voc_match Fixture.fuzzy_match
                 (Fixture.skill Fixture.both_forms) "rock music"
                 CommonPlayMediaType.GENERIC 0 false r 5
          else calc_score Fixture.voc_match Fixture.fuzzy_match
                 (Fixture.skill Fixture.both_forms) "rock music"
                 CommonPlayMediaType.GENERIC 0 false r (5 - 4) - 1)%Q
    /\ Match.title m
       = (if decide (Match.playback m = CommonPlayPlaybackType.AUDIO)
          then Video.title r ++ " (audio only)" else Video.title r).
Proof.
  exact (build_matches_follows_results Fixture.voc_match Fixture.fuzzy_match
           (Fixture.skill Fixture.both_forms) "rock music"
           CommonPlayMediaType.GENERIC 0 false Fixture.rock_music_videos
           (Fixture.matches_of
              (build_matches Fixture.voc_match Fixture.fuzzy_match
                 (Fixture.skill Fixture.both_forms) "rock music"
                 CommonPlayMediaType.GENERIC 0 false
                 Fixture.rock_music_videos))
           5%nat
           (Fixture.match_at 5
              (build_matches Fixture.voc_match Fixture.fuzzy_match
                 (Fixture.skill Fixture.both_forms) "rock music"
                 CommonPlayMediaType.GENERIC 0 false
                 Fixture.rock_music_videos))
           eq_refl eq_refl).
Defined.

(** ** The image of a match *)

Lemma getitem_0_cons {A : Type} (x : A) (xs : list A) :
  Py.getitem (x :: xs) 0 = Ok x.
Proof.
  unfold Py.getitem. simpl length.
  replace (0 <? 0) with false by reflexivity.
  destruct (Z.of_nat (S (length xs)) <=? 0) eqn:E; [|reflexivity].
  apply Z.leb_le in E. lia.
Qed.

Lemma getitem_minus_1 {A : Type} (xs : list A) :
  Py.getitem xs (-1)
  = match last xs with Some x => Ok x | None => Raise IndexError end.
Proof.
  unfold Py.getitem. replace (-1 <? 0) with true by reflexivity.
  rewrite last_lookup.
  destruct xs as [|x xs]; [reflexivity|].
  destruct (-1 + Z.of_nat (length (x :: xs)) <? 0) eqn:E1;
    [apply Z.ltb_lt in E1; simpl in E1; lia|].
  destruct (Z.of_nat (length (x :: xs))
            <=? -1 + Z.of_nat (length (x :: xs))) eqn:E2;
    [apply Z.leb_le in E2; lia|].
  simpl orb. cbv iota.
  replace (Z.to_nat (-1 + Z.of_nat (length (x :: xs))))
    with (pred (length (x :: xs))) by (simpl; lia).
  reflexivity.
Qed.

Lemma thumbnail_first_field (r : Video.t) :
  (Video.thumbnails r = [] -> thumbnail r = Raise IndexError)
  /\ (forall t,
        last (Video.thumbnails r) = Some t ->
        exists img,
          thumbnail r = Ok img
          /\ count_char "?" img = 0%nat
          /\ (Thumbnail.url t = img
              \/ exists query, Thumbnail.url t = img ++ "?" ++ query)).
Proof.
  unfold thumbnail. rewrite getitem_minus_1. split.
  - intros ->. reflexivity.
  - intros t ->. simpl.
    destruct (split_decompose "?" (Thumbnail.url t))
      as (img & others & -> & Himg & Hrest).
    exists img. rewrite getitem_0_cons.
    split; [reflexivity|]. split; [exact Himg|].
    destruct Hrest as [[_ ->]|(query & -> & _)]; [left|right]; eauto.
Qed.

(** The image of a result is the address of its last thumbnail up to the
    first question mark, which it leaves out with all that follows; a
    result without thumbnails raises IndexError. *)
Theorem thumbnail_strips_query (r : Video.t) :
  (Video.thumbnails r = [] -> thumbnail r = Raise IndexError)
  /\ (forall t,
        last (Video.thumbnails r) = Some t ->
        exists img,
          thumbnail r = Ok img
          /\ count_char "?" img = 0%nat
          /\ (Thumbnail.url t = img
              \/ exists query, Thumbnail.url t = img ++ "?" ++ query)).
Proof. apply thumbnail_first_field. Qed.

Lemma thumbnail_strips_query_witness :
  exists img,
    thumbnail (Fixture.video "clip" None Fixture.thumbs) = Ok img
    /\ count_char "?" img = 0%nat
    /\ ("https://i.ytimg.com/vi/a/hq.jpg?sqp=y" = img
        \/ exists query,
             "https://i.ytimg.com/vi/a/hq.jpg?sqp=y" = img ++ "?" ++ query).
Proof.
  exact (proj2 (thumbnail_strips_query
                  (Fixture.video "clip" None Fixture.thumbs))
           {| Thumbnail.url := "https://i.ytimg.com/vi/a/hq.jpg?sqp=y" |}
           eq_refl).
Defined.

(** ** What every match has in common *)

Lemma search_youtube_built voc_match remove_voc fuzzy_match youtube_searcher
    self phrase media_type ms self' j (m : Match.t) :
  search_youtube voc_match remove_voc fuzzy_match youtube_searcher
    self phrase media_type = (Ok ms, self') ->
  ms !! j = Some m ->
  exists results filtered,
    fetched youtube_searcher self
      (searched_phrase voc_match remove_voc phrase media_type) results self'
    /\ filter_results voc_match media_type results = Ok filtered
    /\ build_matches voc_match fuzzy_match self'
         (searched_phrase voc_match remove_voc phrase media_type) media_type
         (normalise voc_match remove_voc phrase media_type).1.1
         (normalise voc_match remove_voc phrase media_type).2 filtered
       = Ok ms.
Proof.
  intros Hrun Hm.
  apply search_youtube_cases in Hrun
    as [(_ & _ & [= ->] & _)|(results & Hfetch & Hout)];
    [discriminate Hm|].
  symmetry in Hout. apply bind_Ok in Hout as (filtered & Hfilter & Hbuild).
  eauto.
Qed.

Lemma build_matches_length_both voc_match fuzzy_match self phrase media_type
    base_score explicit_request (results : list Video.t) ms :
  audio_only (settings self) = false ->
  video_only (settings self) = false ->
  build_matches voc_match fuzzy_match self phrase media_type base_score
    explicit_request results = Ok ms ->
  length ms = (2 * length results)%nat.
Proof.
  intros Ha Hv (vs & ds & Hvs & Hds & ->)%build_matches_both; [|auto|auto].
  apply comprehension_enumerate_lookup in Hvs as (Hlv & _).
  apply comprehension_enumerate_lookup in Hds as (Hld & _).
  rewrite length_app. lia.
Qed.

(** Whatever category was requested, a match has media type VIDEO; its
    image and background image are the same address, free of question
    marks; and its icon, logo and skill id are those of the skill. *)
Theorem matches_carry_fixed_fields voc_match remove_voc fuzzy_match
    youtube_searcher self phrase media_type ms self' j (m : Match.t) :
  search_youtube voc_match remove_voc fuzzy_match youtube_searcher
    self phrase media_type = (Ok ms, self') ->
  ms !! j = Some m ->
  Match.media_type m = CommonPlayMediaType.VIDEO
  /\ Match.bg_image m = Match.image m
  /\ count_char "?" (Match.image m) = 0%nat
  /\ Match.skill_icon m = skill_icon self
  /\ Match.skill_logo m = skill_icon self
  /\ Match.skill_id m = skill_id self.
Proof.
  intros Hrun Hm.
  destruct (search_youtube_built _ _ _ _ _ _ _ _ _ _ _ Hrun Hm)
    as (results & filtered & Hfetch & _ & Hbuild).
  destruct (fetched_settings _ _ _ _ _ Hfetch) as (_ & Hicon & Hid).
  assert (Hclean : forall r img,
            thumbnail r = Ok img -> count_char "?" img = 0%nat).
  { intros r img Himg.
    destruct (last (Video.thumbnails r)) as [t|] eqn:Hlast.
    - destruct (proj2 (thumbnail_first_field r) t Hlast)
        as (img' & Himg' & Hcount & _).
      congruence.
    - unfold thumbnail in Himg. rewrite getitem_minus_1, Hlast in Himg.
      discriminate Himg. }
  destruct (build_matches_entry _ _ _ _ _ _ _ _ _ _ _ Hbuild Hm)
    as [(_ & r & _ & Hmatch)
       |[(_ & r & _ & Hmatch)|(_ & _ & _ & r & _ & Hmatch)]].
  - apply audio_only_match_returns in Hmatch as (len & img & _ & Himg & ->).
    simpl. rewrite Hicon, Hid. repeat split. eapply Hclean, Himg.
  - apply video_match_returns in Hmatch as (len & img & _ & Himg & ->).
    simpl. rewrite Hicon, Hid. repeat split. eapply Hclean, Himg.
  - apply audio_duplicate_match_returns in Hmatch
      as (len & img & _ & Himg & ->).
    simpl. rewrite Hicon, Hid. repeat split. eapply Hclean, Himg.
Qed.

(** The playback of a match is decided by the settings alone, not by the
    requested category or the GUI: AUDIO throughout under [audio_only];
    otherwise VIDEO throughout under [video_only]; otherwise VIDEO in the
    first half of the list and AUDIO in the second. *)
Theorem playback_follows_settings voc_match remove_voc fuzzy_match
    youtube_searcher self phrase media_type ms self' j (m : Match.t) :
  search_youtube voc_match remove_voc fuzzy_match youtube_searcher
    self phrase media_type = (Ok ms, self') ->
  ms !! j = Some m ->
  Match.playback m =
    if audio_only (settings self) then CommonPlayPlaybackType.AUDIO
    else if video_only (settings self) then CommonPlayPlaybackType.VIDEO
    else if decide (2 * j < length ms)%nat then CommonPlayPlaybackType.VIDEO
    else CommonPlayPlaybackType.AUDIO.
Proof.
  intros Hrun Hm.
  destruct (search_youtube_built _ _ _ _ _ _ _ _ _ _ _ Hrun Hm)
    as (results & filtered & Hfetch & _ & Hbuild).
  destruct (fetched_settings _ _ _ _ _ Hfetch) as (Hset & _).
  rewrite <- Hset.
  destruct (build_matches_entry _ _ _ _ _ _ _ _ _ _ _ Hbuild Hm)
    as [(Ha & r & _ & Hmatch)
       |[(Ha & r & Hr & Hmatch)|(Ha & Hv & Hge & r & _ & Hmatch)]].
  - apply audio_only_match_returns in Hmatch as (len & img & _ & _ & ->).
    rewrite Ha. reflexivity.
  - apply video_match_returns in Hmatch as (len & img & _ & _ & ->).
    rewrite Ha. simpl.
    destruct (video_only (settings self')) eqn:Hv; [reflexivity|].
    rewrite (build_matches_length_both _ _ _ _ _ _ _ _ _ Ha Hv Hbuild).
    apply lookup_lt_Some in Hr.
    rewrite decide_True by lia. reflexivity.
  - apply audio_duplicate_match_returns in Hmatch
      as (len & img & _ & _ & ->).
    rewrite Ha, Hv. simpl.
    rewrite (build_matches_length_both _ _ _ _ _ _ _ _ _ Ha Hv Hbuild).
    rewrite decide_False by lia. reflexivity.
Qed.

Lemma matches_carry_fixed_fields_witness :
  let m := Fixture.match_at 1 (Fixture.search Fixture.both_forms
                                 "rock music" CommonPlayMediaType.MUSIC) in
  Match.media_type m = CommonPlayMediaType.VIDEO
  /\ Match.bg_image m = Match.image m
  /\ count_char "?" (Match.image m) = 0%nat
  /\ Match.skill_icon m = "ui/ytube.jpg"
  /\ Match.skill_logo m = "ui/ytube.jpg"
  /\ Match.skill_id m = "skill-simple-youtube".
Proof.
  exact (matches_carry_fixed_fields Fixture.voc_match Fixture.remove_voc
           Fixture.fuzzy_match Fixture.youtube_searcher
           (Fixture.skill Fixture.both_forms) "rock music"
           CommonPlayMediaType.MUSIC
           (Fixture.matches_of (Fixture.search Fixture.both_forms
                                  "rock music" CommonPlayMediaType.MUSIC))
           (Fixture.run Fixture.both_forms "rock music"
              CommonPlayMediaType.MUSIC).2
           1%nat
           (Fixture.match_at 1 (Fixture.search Fixture.both_forms
                                  "rock music" CommonPlayMediaType.MUSIC))
           eq_refl eq_refl).
Defined.

(** An AUDIO request under the default settings: the first match has
    playback VIDEO. *)
Lemma playback_follows_settings_witness :
  Match.playback
    (Fixture.match_at 0 (Fixture.search default_settings "rock music"
                           CommonPlayMediaType.AUDIO))
  = CommonPlayPlaybackType.VIDEO.
Proof.
  exact (playback_follows_settings Fixture.voc_match Fixture.remove_voc
           Fixture.fuzzy_match Fixture.youtube_searcher
           (Fixture.skill default_settings) "rock music"
           CommonPlayMediaType.AUDIO
           (Fixture.matches_of (Fixture.search default_settings
                                  "rock music" CommonPlayMediaType.AUDIO))
           (Fixture.run default_settings "rock music"
              CommonPlayMediaType.AUDIO).2
           0%nat
           (Fixture.match_at 0 (Fixture.search default_settings
                                  "rock music" CommonPlayMediaType.AUDIO))
           eq_refl eq_refl).
Defined.

(** ** What an invocation does not depend on *)

(** Whether a GUI is connected makes no difference to what the method
    returns or to what it stores. *)
Theorem gui_connection_is_not_consulted voc_match remove_voc fuzzy_match
    youtube_searcher self phrase media_type (b : bool) :
  search_youtube voc_match remove_voc fuzzy_match youtube_searcher
    (set_gui_connected self b) phrase media_type
  = ((search_youtube voc_match remove_voc fuzzy_match youtube_searcher
        self phrase media_type).1,
     set_gui_connected
       (search_youtube voc_match remove_voc fuzzy_match youtube_searcher
          self phrase media_type).2 b).
Proof.
  unfold search_youtube.
  destruct (normalise voc_match remove_voc phrase media_type)
    as [[base phrase'] explicit].
  simpl. destruct (search_cache self !! phrase'); [reflexivity|].
  destruct (youtube_searcher phrase'); reflexivity.
Qed.

Lemma comprehension_ext {A B : Type} (f g : A -> result B) (xs : list A) :
  (forall x, f x = g x) -> comprehension f xs = comprehension g xs.
Proof.
  intros H. induction xs as [|x xs IH]; simpl; [reflexivity|].
  rewrite H, IH. reflexivity.
Qed.

Lemma calc_score_explicit voc_match fuzzy_match self phrase media_type
    base_score (b : bool) (r : Video.t) (idx : nat) :
  calc_score voc_match fuzzy_match (with_fallback_mode self b) phrase
    media_type base_score true r idx
  = calc_score voc_match fuzzy_match self phrase media_type base_score true
      r idx.
Proof.
  unfold calc_score, score_before_min. simpl.
  destruct b, (fallback_mode (settings self)); reflexivity.
Qed.

Lemma build_matches_explicit voc_match fuzzy_match self phrase media_type
    base_score (b : bool) (results : list Video.t) :
  build_matches voc_match fuzzy_match (with_fallback_mode self b) phrase
    media_type base_score true results
  = build_matches voc_match fuzzy_match self phrase media_type base_score
      true results.
Proof.
  unfold build_matches. simpl.
  rewrite (comprehension_ext
             (audio_only_match voc_match fuzzy_match
                (with_fallback_mode self b) phrase media_type base_score true)
             (audio_only_match voc_match fuzzy_match self phrase media_type
                base_score true)).
  2:{ intros [i r]. unfold audio_only_match.
      rewrite calc_score_explicit. reflexivity. }
  rewrite (comprehension_ext
             (video_match voc_match fuzzy_match
                (with_fallback_mode self b) phrase media_type base_score true)
             (video_match voc_match fuzzy_match self phrase media_type
                base_score true)).
  2:{ intros [i r]. unfold video_match.
      rewrite calc_score_explicit. reflexivity. }
  rewrite (comprehension_ext
             (audio_duplicate_match voc_match fuzzy_match
                (with_fallback_mode self b) phrase media_type base_score true)
             (audio_duplicate_match voc_match fuzzy_match self phrase
                media_type base_score true)).
  2:{ intros [i r]. unfold audio_duplicate_match.
      rewrite calc_score_explicit. reflexivity. }
  reflexivity.
Qed.

(** A phrase that names the provider is exempt from fallback mode: the
    method returns the same, matches and confidences alike, whether
    [fallback_mode] is on or off. *)
Theorem explicit_request_ignores_fallback_mode voc_match remove_voc
    fuzzy_match youtube_searcher self phrase media_type (b : bool) :
  voc_match phrase "youtube" = true ->
  (search_youtube voc_match remove_voc fuzzy_match youtube_searcher
     (with_fallback_mode self b) phrase media_type).1
  = (search_youtube voc_match remove_voc fuzzy_match youtube_searcher
       self phrase media_type).1.
Proof.
  intros Hvoc. unfold search_youtube, normalise. rewrite Hvoc. simpl.
  destruct (search_cache self !! remove_voc phrase "youtube").
  - simpl. destruct (filter_results voc_match media_type l); [|reflexivity].
    simpl. apply build_matches_explicit.
  - destruct (youtube_searcher (remove_voc phrase "youtube"));
      [|reflexivity].
    simpl. destruct (filter_results voc_match media_type l); [|reflexivity].
    simpl.
    apply (build_matches_explicit voc_match fuzzy_match
             (set_search_cache self _)).
Qed.

(** "youtube big buck bunny" names the provider: fallback mode changes
    nothing. *)
Lemma explicit_request_ignores_fallback_mode_witness :
  (search_youtube Fixture.voc_match Fixture.remove_voc Fixture.fuzzy_match
     Fixture.youtube_searcher
     (with_fallback_mode (Fixture.skill default_settings) true)
     "youtube big buck bunny" CommonPlayMediaType.VIDEO).1
  = Fixture.search default_settings "youtube big buck bunny"
      CommonPlayMediaType.VIDEO.
Proof.
  exact (explicit_request_ignores_fallback_mode Fixture.voc_match
           Fixture.remove_voc Fixture.fuzzy_match Fixture.youtube_searcher
           (Fixture.skill default_settings) "youtube big buck bunny"
           CommonPlayMediaType.VIDEO true eq_refl).
Defined.

(** ** The cache over several invocations *)

(** Once the results for a phrase are in the cache, asking again gives the
    same outcome without the provider: whatever the provider would now
    return or raise, the method returns, or raises, what it did before and
    leaves the skill as it is.  This holds for an invocation that raised
    as well: results with an entry the method cannot process are cached
    before they are processed, and fail again on every later call. *)
Theorem repeated_search_is_served_from_cache voc_match remove_voc
    fuzzy_match youtube_searcher self phrase media_type outcome self' :
  search_youtube voc_match remove_voc fuzzy_match youtube_searcher
    self phrase media_type = (outcome, self') ->
  is_Some (search_cache self'
             !! searched_phrase voc_match remove_voc phrase media_type) ->
  forall youtube_searcher',
    search_youtube voc_match remove_voc fuzzy_match youtube_searcher'
      self' phrase media_type = (outcome, self').
Proof.
  intros Hrun Hcached provider'.
  apply search_youtube_cases in Hrun
    as [(Hmiss & _ & _ & ->)|(results & Hfetch & ->)].
  - rewrite Hmiss in Hcached. destruct Hcached as [? [=]].
  - apply search_youtube_fetched. left. split; [|reflexivity].
    destruct Hfetch as [[Hhit ->]|(_ & _ & ->)]; [exact Hhit|].
    simpl. apply lookup_insert_eq.
Qed.

(** The results for "no thumbnails" raise IndexError, and do so again from
    the cache when the provider has stopped answering. *)
Lemma repeated_search_is_served_from_cache_witness :
  search_youtube Fixture.voc_match Fixture.remove_voc Fixture.fuzzy_match
    (fun _ => None)
    (Fixture.run default_settings "no thumbnails"
       CommonPlayMediaType.VIDEO).2
    "no thumbnails" CommonPlayMediaType.VIDEO
  = (Raise IndexError,
     (Fixture.run default_settings "no thumbnails"
        CommonPlayMediaType.VIDEO).2).
Proof.
  apply (repeated_search_is_served_from_cache Fixture.voc_match
           Fixture.remove_voc Fixture.fuzzy_match Fixture.youtube_searcher
           (Fixture.skill default_settings) "no thumbnails"
           CommonPlayMediaType.VIDEO).
  - vm_compute. reflexivity.
  - vm_compute. eexists. reflexivity.
Defined.

(** An invocation changes nothing of the skill but the cache, removes no
    phrase from the cache and replaces no results in it; and after a
    provider call that returned, the cache holds what the provider
    returned, unfiltered, whatever became of the invocation. *)
Theorem search_youtube_only_adds_to_cache voc_match remove_voc fuzzy_match
    youtube_searcher self phrase media_type :
  let self' :=
    (search_youtube voc_match remove_voc fuzzy_match youtube_searcher
       self phrase media_type).2 in
  let phrase' := searched_phrase voc_match remove_voc phrase media_type in
  settings self' = settings self
  /\ gui_connected self' = gui_connected self
  /\ skill_icon self' = skill_icon self
  /\ skill_id self' = skill_id self
  /\ (forall k results,
        search_cache self !! k = Some results ->
        search_cache self' !! k = Some results)
  /\ (forall results,
        search_cache self !! phrase' = None ->
        youtube_searcher phrase' = Some results ->
        search_cache self' !! phrase' = Some results).
Proof.
  intros self' phrase'.
  destruct (search_youtube voc_match remove_voc fuzzy_match youtube_searcher
              self phrase media_type) as [outcome self''] eqn:Hrun.
  subst self'. simpl.
  apply search_youtube_cases in Hrun
    as [(Hmiss & Hprov & _ & ->)|(results & Hfetch & _)].
  - repeat split; auto. fold phrase' in Hprov. congruence.
  - fold phrase' in Hfetch.
    destruct Hfetch as [[Hhit ->]|(Hmiss & Hprov & ->)].
    + repeat split; auto. congruence.
    + simpl. repeat split.
      * intros k cached Hk. rewrite lookup_insert_ne; [exact Hk|].
        intros <-. congruence.
      * intros results' _ Hprov'. rewrite lookup_insert_eq. congruence.
Qed.

(** ** Bounds on the score *)


Lemma ge_true (x y : Q) : Py.ge x y = true <-> (y <= x)%Q.
Proof. unfold Py.ge. apply Qle_bool_iff. Qed.

Lemma ge_false (x y : Q) : Py.ge x y = false <-> (x < y)%Q.
Proof.
  split.
  - intros H. apply Qnot_le_lt. intros Hc. apply ge_true in Hc. congruence.
  - intros H. destruct (Py.ge x y) eqn:E; [|reflexivity].
    apply ge_true in E. apply Qlt_not_le in H. contradiction.
Qed.

(** The running score of a request that does not name the provider, for
    a category without base score, when the fuzzy match is at most 1. *)
Lemma score_before_min_unqualified voc_match fuzzy_match self phrase
    media_type (m : Video.t) (idx : nat) :
  (forall a b, (fuzzy_match a b <= 1)%Q) ->
  media_type <> CommonPlayMediaType.VIDEO ->
  media_type <> CommonPlayMediaType.MUSIC ->
  (score_before_min voc_match fuzzy_match self phrase media_type 0 false
     m idx < 100)%Q
  /\ (media_type = CommonPlayMediaType.GENERIC ->
      (score_before_min voc_match fuzzy_match self phrase media_type 0 false
         m idx <= 90)%Q).
Proof.
  intros Hfm Hvideo Hmusic.
  pose proof (Hfm (Py.lower phrase) (Py.lower (Video.title m))) as Hle.
  assert (Hidx : (inject_Z (0 - Z.of_nat idx * 5) <= inject_Z 0)%Q)
    by (rewrite <- Zle_Qle; lia).
  change (inject_Z 0) with 0%Q in Hidx.
  unfold score_before_min.
  set (v := fuzzy_match (Py.lower phrase) (Py.lower (Video.title m))) in *.
  set (z := inject_Z (0 - Z.of_nat idx * 5)) in *.
  destruct media_type; try congruence; simpl;
    match goal with
    | |- context [Py.ge ?s 100] =>
        let E := fresh "E" in
        destruct (Py.ge s 100) eqn:E;
        [apply ge_true in E|apply ge_false in E]
    end;
    destruct (fallback_mode (settings self));
    (split; [lra|intros Hmt; try discriminate Hmt; lra]).
Qed.

(** A request that does not name the provider, for a category other than
    VIDEO and MUSIC, never reaches the ceiling when the fuzzy match is at
    most 1: every confidence is below 100, and at most 90 under a GENERIC
    request. *)
Theorem unqualified_requests_stay_below_the_ceiling voc_match remove_voc
    fuzzy_match youtube_searcher self phrase media_type ms self' j
    (m : Match.t) :
  (forall a b, (fuzzy_match a b <= 1)%Q) ->
  voc_match phrase "youtube" = false ->
  media_type <> CommonPlayMediaType.VIDEO ->
  media_type <> CommonPlayMediaType.MUSIC ->
  search_youtube voc_match remove_voc fuzzy_match youtube_searcher
    self phrase media_type = (Ok ms, self') ->
  ms !! j = Some m ->
  (Match.match_confidence m < 100)%Q
  /\ (media_type = CommonPlayMediaType.GENERIC ->
      (Match.match_confidence m <= 90)%Q).
Proof.
  intros Hfm Hvoc Hvideo Hmusic Hrun Hm.
  destruct (search_youtube_built _ _ _ _ _ _ _ _ _ _ _ Hrun Hm)
    as (results & filtered & _ & _ & Hbuild).
  rewrite (normalise_not_explicit _ _ _ _ Hvoc) in Hbuild.
  assert (Hbase : (normalise voc_match remove_voc phrase media_type).1.1 = 0).
  { unfold normalise. rewrite Hvoc. destruct media_type; simpl; congruence. }
  rewrite Hbase in Hbuild.
  destruct (build_matches_confidence _ _ _ _ _ _ _ _ _ _ _ Hbuild Hm)
    as (i & r & _ & Hconf).
  destruct (score_before_min_unqualified voc_match fuzzy_match self'
              (searched_phrase voc_match remove_voc phrase media_type)
              media_type r i Hfm Hvideo Hmusic) as [Hlt Hgeneric].
  pose proof (min_100_le
                (score_before_min voc_match fuzzy_match self'
                   (searched_phrase voc_match remove_voc phrase media_type)
                   media_type 0 false r i)) as Hmin.
  unfold calc_score in Hconf.
  split.
  - destruct Hconf as [-> | ->]; lra.
  - intros Hmt. specialize (Hgeneric Hmt).
    destruct Hconf as [-> | ->]; lra.
Qed.

Lemma unqualified_requests_stay_below_the_ceiling_witness :
  let m := Fixture.match_at 3 (Fixture.search default_settings "rock music"
                                 CommonPlayMediaType.GENERIC) in
  (Match.match_confidence m < 100)%Q
  /\ (CommonPlayMediaType.GENERIC = CommonPlayMediaType.GENERIC ->
      (Match.match_confidence m <= 90)%Q).
Proof.
  apply (unqualified_requests_stay_below_the_ceiling Fixture.voc_match
           Fixture.remove_voc Fixture.fuzzy_match Fixture.youtube_searcher
           (Fixture.skill default_settings) "rock music"
           CommonPlayMediaType.GENERIC
           (Fixture.matches_of (Fixture.search default_settings
                                  "rock music" CommonPlayMediaType.GENERIC))
           (Fixture.run default_settings "rock music"
              CommonPlayMediaType.GENERIC).2
           3%nat).
  - intros a b. unfold Fixture.fuzzy_match.
    destruct (String.eqb a b); [apply Qle_refl|discriminate].
  - reflexivity.
  - discriminate.
  - discriminate.
  - reflexivity.
  - reflexivity.
Defined.


(** ** The settings after [__init__] *)

Lemma settings_of_init_settings (stored : gmap string bool) :
  settings_of (init_settings stored)
  = Some {| fallback_mode := default false (stored !! "fallback_mode");
            audio_only := default false (stored !! "audio_only");
            video_only := default true (stored !! "video_only") |}.
Proof.
  unfold settings_of, init_settings.
  destruct (stored !! "fallback_mode") as [fb|] eqn:Hfb;
    destruct (stored !! "audio_only") as [ao|] eqn:Hao;
    destruct (stored !! "video_only") as [vo|] eqn:Hvo;
    repeat case_decide; simplify_map_eq; reflexivity.
Qed.

(** After [__init__] the three settings the method reads are all there:
    each has the stored value when there was one, and otherwise its
    default, off for [fallback_mode] and [audio_only] and on for
    [video_only]. *)
Theorem init_settings_supplies_defaults (stored : gmap string bool) :
  settings_of (init_settings stored)
  = Some {| fallback_mode := default false (stored !! "fallback_mode");
            audio_only := default false (stored !! "audio_only");
            video_only := default true (stored !! "video_only") |}.
Proof. apply settings_of_init_settings. Qed.

(** [__init__] overwrites no stored value, touches no other key, and
    changes nothing when run on settings it has already completed. *)
Theorem init_settings_keeps_stored (stored : gmap string bool) :
  (forall k v, stored !! k = Some v -> init_settings stored !! k = Some v)
  /\ (forall k,
        k <> "fallback_mode" -> k <> "audio_only" -> k <> "video_only" ->
        init_settings stored !! k = stored !! k)
  /\ init_settings (init_settings stored) = init_settings stored.
Proof.
  assert (Hkeep : forall s k v,
            s !! k = Some v -> init_settings s !! k = Some v).
  { intros s k v Hk. unfold init_settings.
    repeat case_decide; simplify_map_eq; auto;
      repeat (rewrite lookup_insert_ne by congruence); auto. }
  split; [apply Hkeep|]. split.
  - intros k H1 H2 H3. unfold init_settings.
    repeat case_decide; simplify_map_eq; reflexivity.
  - pose proof (settings_of_init_settings stored) as Hall.
    unfold settings_of in Hall.
    destruct (init_settings stored !! "fallback_mode") eqn:H1;
      [|discriminate Hall].
    destruct (init_settings stored !! "audio_only") eqn:H2;
      [|discriminate Hall].
    destruct (init_settings stored !! "video_only") eqn:H3;
      [|discriminate Hall].
    unfold init_settings at 1.
    repeat case_decide; congruence.
Qed.

(** ** From the provider's results to the matches *)

(** Every match the method returns is made from one of the results the
    cache or the provider holds for the searched phrase, and from one that
    passes the test of the requested category: under a MUSIC request its
    title is in the music vocabulary, under a PODCAST or DOCUMENTARY
    request it has the length and the title asked for.  The match has
    that result's url, and its title, marked or not. *)
Theorem matches_come_from_kept_results voc_match remove_voc fuzzy_match
    youtube_searcher self phrase media_type ms self' j (m : Match.t) :
  search_youtube voc_match remove_voc fuzzy_match youtube_searcher
    self phrase media_type = (Ok ms, self') ->
  ms !! j = Some m ->
  exists results r,
    search_cache self'
      !! searched_phrase voc_match remove_voc phrase media_type
    = Some results
    /\ r ∈ results
    /\ keeps voc_match media_type r = true
    /\ Match.uri m = Video.url r
    /\ (Match.title m = Video.title r
        \/ Match.title m = Video.title r ++ " (audio only)").
Proof.
  intros Hrun Hm.
  destruct (search_youtube_built _ _ _ _ _ _ _ _ _ _ _ Hrun Hm)
    as (results & filtered & Hfetch & Hfilter & Hbuild).
  apply filter_results_filter in Hfilter as [Hfiltered _].
  assert (Hcached : search_cache self'
                      !! searched_phrase voc_match remove_voc phrase
                           media_type = Some results).
  { destruct Hfetch as [[Hhit ->]|(_ & _ & ->)]; [exact Hhit|].
    simpl. apply lookup_insert_eq. }
  assert (Hkept : forall i r, filtered !! i = Some r ->
                    r ∈ results /\ keeps voc_match media_type r = true).
  { intros i r Hr. apply list_elem_of_lookup_2 in Hr.
    rewrite Hfiltered in Hr. apply list_elem_of_filter in Hr as [? ?].
    auto. }
  exists results.
  destruct (build_matches_entry _ _ _ _ _ _ _ _ _ _ _ Hbuild Hm)
    as [(_ & r & Hr & Hmatch)
       |[(_ & r & Hr & Hmatch)|(_ & _ & _ & r & Hr & Hmatch)]];
    destruct (Hkept _ _ Hr) as [Hin Hkeeps]; exists r.
  - apply audio_only_match_returns in Hmatch as (len & img & _ & _ & ->).
    simpl. auto 10.
  - apply video_match_returns in Hmatch as (len & img & _ & _ & ->).
    simpl. auto 10.
  - apply audio_duplicate_match_returns in Hmatch
      as (len & img & _ & _ & ->).
    simpl. auto 10.
Qed.

(** The one match of a MUSIC request for "rock music" is made from the
    one result titled as music. *)
Lemma matches_come_from_kept_results_witness :
  let m := Fixture.match_at 0 (Fixture.search default_settings "rock music"
                                 CommonPlayMediaType.MUSIC) in
  exists results r,
    search_cache (Fixture.run default_settings "rock music"
                    CommonPlayMediaType.MUSIC).2
      !! searched_phrase Fixture.voc_match Fixture.remove_voc "rock music"
           CommonPlayMediaType.MUSIC
    = Some results
    /\ r ∈ results
    /\ keeps Fixture.voc_match CommonPlayMediaType.MUSIC r = true
    /\ Match.uri m = Video.url r
    /\ (Match.title m = Video.title r
        \/ Match.title m = Video.title r ++ " (audio only)").
Proof.
  exact (matches_come_from_kept_results Fixture.voc_match Fixture.remove_voc
           Fixture.fuzzy_match Fixture.youtube_searcher
           (Fixture.skill default_settings) "rock music"
           CommonPlayMediaType.MUSIC
           (Fixture.matches_of (Fixture.search default_settings
                                  "rock music" CommonPlayMediaType.MUSIC))
           (Fixture.run default_settings "rock music"
              CommonPlayMediaType.MUSIC).2
           0%nat
           (Fixture.match_at 0 (Fixture.search default_settings
                                  "rock music" CommonPlayMediaType.MUSIC))
           eq_refl eq_refl).
Defined.

(** ** When the method returns, and when it raises IndexError *)








Section Outcome.

Variable voc_match : string -> string -> bool.
Variable remove_voc : string -> string -> string.
Variable fuzzy_match : string -> string -> Q.
Variable youtube_searcher : string -> option (list Video.t).
Variable self : SimpleYoutubeSkill.
Variable phrase : string.
Variable media_type : CommonPlayMediaType.t.
Variable base_score : Z.
Variable explicit_request : bool.







End Outcome.


